(** * The admin control panel of the remote PDF presenter (src/js/admin.js)

    A shallow embedding of [clamp] and of the class [AdminApp]: the local
    presenter state, its two side-effecting property setters and every event
    handler of the class, followed by the properties of the synchronisation
    between the local controls and the shared "presenter/state" document.

    Collaborators that the class only calls (the PDF viewer, Firestore, the
    auth provider, the console) are not re-implemented: every call to one of
    them is recorded, in program order, in an effect log. *)

From Stdlib Require Import ZArith List String Ascii Bool Lia.
From Stdlib Require Import DecimalString DecimalPos.
Import ListNotations.
Local Open Scope string_scope.
Local Open Scope Z_scope.

(** ** JavaScript values used by the class *)

Module JS.

(** Numbers.  The class only ever produces integers (results of [parseInt],
    of [+ delta] and of [clamp]) and [NaN]; an integer is a [Z], which is
    exact for the doubles below 2^53 in magnitude. *)
Inductive number : Type :=
| Int (z : Z)
| NaN.

(** [Number.isInteger] *)
Definition isInteger (n : number) : bool :=
  match n with Int _ => true | NaN => false end.

(** [Math.max(a, b)] and [Math.min(a, b)]: [NaN] as soon as one argument
    is. *)
Definition Math_max (a b : number) : number :=
  match a, b with
  | Int x, Int y => Int (Z.max x y)
  | _, _ => NaN
  end.

Definition Math_min (a b : number) : number :=
  match a, b with
  | Int x, Int y => Int (Z.min x y)
  | _, _ => NaN
  end.

(** A property that holds a number once assigned: [None] is [undefined]. *)
Definition slot : Type := option number.

(** [x + delta] for [x] a number or [undefined] and [delta] an integer:
    [undefined + 1] and [NaN + 1] are [NaN]. *)
Definition add (x : slot) (delta : Z) : number :=
  match x with
  | Some (Int z) => Int (z + delta)
  | _ => NaN
  end.

(** [n != x] for a number [n] against a number or [undefined]: a number is
    never loosely equal to [undefined], and [NaN] differs from everything,
    itself included. *)
Definition number_neq (n : number) (x : slot) : bool :=
  match n, x with
  | Int a, Some (Int b) => negb (a =? b)
  | _, _ => true
  end.

(** The values a deck name takes: a string, or [undefined] (the property
    before its first assignment, a field missing from the document) or
    [null]. *)
Inductive name : Type :=
| Undefined
| Null
| Str (s : string).

(** [a != b] on such values: [undefined] and [null] are loosely equal to
    each other and to nothing else, strings compare by content. *)
Definition name_neq (a b : name) : bool :=
  match a, b with
  | Str s, Str t => negb (String.eqb s t)
  | Str _, _ | _, Str _ => true
  | _, _ => false
  end.

(** The value of a document field read as a page number: anything Firestore
    stores that [parseInt] may be handed. *)
Inductive field : Type :=
| FUndefined
| FNull
| FNumber (n : number)
| FString (s : string).

(** *** [parseInt] (no radix argument) *)

(** White space skipped in front of the number (the one-byte cases). *)
Definition is_white_space (c : ascii) : bool :=
  let n := N_of_ascii c in
  ((9 <=? n) && (n <=? 13) || (n =? 32))%N.

Fixpoint trim_start (s : string) : string :=
  match s with
  | String c r => if is_white_space c then trim_start r else s
  | EmptyString => s
  end.

(** Value of a character as a digit, letters counting from 10. *)
Definition digit_value (c : ascii) : option Z :=
  let n := Z.of_N (N_of_ascii c) in
  if (48 <=? n) && (n <=? 57) then Some (n - 48)
  else if (97 <=? n) && (n <=? 122) then Some (n - 87)
  else if (65 <=? n) && (n <=? 90) then Some (n - 55)
  else None.

(** The longest prefix of [s] made of digits of the radix, read as a number
    on top of [acc]; [seen] tells whether a digit was read already. *)
Fixpoint read_digits (radix : Z) (s : string) (acc : Z) (seen : bool) : option Z :=
  match s with
  | String c r =>
      match digit_value c with
      | Some d =>
          if d <? radix then read_digits radix r (acc * radix + d) true
          else if seen then Some acc else None
      | None => if seen then Some acc else None
      end
  | EmptyString => if seen then Some acc else None
  end.

Definition strip_sign (s : string) : Z * string :=
  match s with
  | String "-" r => (-1, r)
  | String "+" r => (1, r)
  | _ => (1, s)
  end.

Definition strip_radix (s : string) : Z * string :=
  match s with
  | String "0" (String "x" r) => (16, r)
  | String "0" (String "X" r) => (16, r)
  | _ => (10, s)
  end.

Definition parseInt_string (s : string) : number :=
  let '(sign, s1) := strip_sign (trim_start s) in
  let '(radix, s2) := strip_radix s1 in
  match read_digits radix s2 0 false with
  | Some n => Int (sign * n)
  | None => NaN
  end.

(** [String(n)] for a number: the decimal digits of an integer, as
    JavaScript prints the integers that a double holds exactly. *)
Definition number_toString (n : number) : string :=
  match n with
  | Int z => NilZero.string_of_int (Z.to_int z)
  | NaN => "NaN"
  end.

Definition name_toString (d : name) : string :=
  match d with
  | Undefined => "undefined"
  | Null => "null"
  | Str s => s
  end.

Definition field_toString (v : field) : string :=
  match v with
  | FUndefined => "undefined"
  | FNull => "null"
  | FNumber n => number_toString n
  | FString s => s
  end.

(** [parseInt(v)]: the argument is converted to a string first. *)
Definition parseInt (v : field) : number :=
  parseInt_string (field_toString v).

End JS.

(** ** [clamp] *)

(** [function clamp(value, min, max) { return Math.min(Math.max(value, min), max); }] *)
Definition clamp (value min max : JS.number) : JS.number :=
  JS.Math_min (JS.Math_max value min) max.

(** ** The state of an [AdminApp] and of what it talks to *)

(** The signed-in user, as far as the class reads it. *)
Record User : Type := { email : string }.

(** The fields the handlers read or assign.  [_currentDeck] and
    [_currentPageNumber] back the two accessor properties; an [..._value],
    [..._textContent] or [..._hidden] field is that property of the DOM
    element of the same name, holding what was last assigned to it or typed
    into it; [viewer_pagesCount] is [this.viewer.pagesCount] and
    [auth_currentUser] is [this.auth.currentUser], both owned by their
    collaborator.  [loading] lists the deck loads in flight: one entry per
    promise returned by [this._updateDeck] and not settled yet, holding the
    [remoteDeck] that its [then] callback captured. *)
Record AdminApp : Type := mkAdminApp {
  _currentDeck : JS.name;
  _currentPageNumber : JS.slot;
  deckNameInput_value : string;
  pageNumberInput_value : string;
  pagesCountSpan_textContent : string;
  emailField_textContent : string;
  emailField_hidden : bool;
  loginButton_hidden : bool;
  logoutButton_hidden : bool;
  viewer_pagesCount : Z;
  auth_currentUser : option User;
  loading : list JS.name
}.

(** The object literal handed to [updateDoc]. *)
Inductive update : Type :=
| currentDeck_is (deckName : string)
| currentPageNumber_is (pageNumber : JS.number).

(** Calls into the collaborators. *)
Inductive effect : Type :=
| updateDoc (data : update)                (* updateDoc(this.presenterStateRef, data) *)
| updateDeck (deckName : JS.name)          (* this._updateDeck(deckName) *)
| viewer_currentPageNumber (pageNumber : JS.number)
                                           (* this.viewer.currentPageNumber = pageNumber *)
| console_error (message : string)
| preventDefault
| location_replace (url : string)
| signOut.

(** ** Handlers: functions of the object that log their calls *)

Definition Handler (A : Type) : Type := AdminApp -> A * AdminApp * list effect.

Definition ret {A : Type} (a : A) : Handler A :=
  fun this => (a, this, []).

Definition bind {A B : Type} (m : Handler A) (k : A -> Handler B) : Handler B :=
  fun this =>
    let '(a, this1, log1) := m this in
    let '(b, this2, log2) := k a this1 in
    (b, this2, (log1 ++ log2)%list).

Definition read {A : Type} (f : AdminApp -> A) : Handler A :=
  fun this => (f this, this, []).

Definition assign (f : AdminApp -> AdminApp) : Handler unit :=
  fun this => (tt, f this, []).

Definition call (e : effect) : Handler unit :=
  fun this => (tt, this, [e]).

Definition when (b : bool) (m : Handler unit) : Handler unit :=
  if b then m else ret tt.

Declare Scope handler_scope.
Delimit Scope handler_scope with handler.
Notation "x <- m ;; k" := (bind m (fun x => k))
  (at level 61, m at next level, right associativity) : handler_scope.
Notation "m ;; k" := (bind m (fun _ => k))
  (at level 61, right associativity) : handler_scope.
Local Open Scope handler_scope.

(** Field assignments. *)
Definition set__currentDeck (v : JS.name) (a : AdminApp) : AdminApp :=
  mkAdminApp v (_currentPageNumber a) (deckNameInput_value a)
    (pageNumberInput_value a) (pagesCountSpan_textContent a)
    (emailField_textContent a) (emailField_hidden a) (loginButton_hidden a)
    (logoutButton_hidden a) (viewer_pagesCount a) (auth_currentUser a)
    (loading a).

Definition set__currentPageNumber (v : JS.slot) (a : AdminApp) : AdminApp :=
  mkAdminApp (_currentDeck a) v (deckNameInput_value a)
    (pageNumberInput_value a) (pagesCountSpan_textContent a)
    (emailField_textContent a) (emailField_hidden a) (loginButton_hidden a)
    (logoutButton_hidden a) (viewer_pagesCount a) (auth_currentUser a)
    (loading a).

Definition set_deckNameInput_value (v : string) (a : AdminApp) : AdminApp :=
  mkAdminApp (_currentDeck a) (_currentPageNumber a) v
    (pageNumberInput_value a) (pagesCountSpan_textContent a)
    (emailField_textContent a) (emailField_hidden a) (loginButton_hidden a)
    (logoutButton_hidden a) (viewer_pagesCount a) (auth_currentUser a)
    (loading a).

Definition set_pageNumberInput_value (v : string) (a : AdminApp) : AdminApp :=
  mkAdminApp (_currentDeck a) (_currentPageNumber a) (deckNameInput_value a)
    v (pagesCountSpan_textContent a)
    (emailField_textContent a) (emailField_hidden a) (loginButton_hidden a)
    (logoutButton_hidden a) (viewer_pagesCount a) (auth_currentUser a)
    (loading a).

Definition set_pagesCountSpan_textContent (v : string) (a : AdminApp) : AdminApp :=
  mkAdminApp (_currentDeck a) (_currentPageNumber a) (deckNameInput_value a)
    (pageNumberInput_value a) v
    (emailField_textContent a) (emailField_hidden a) (loginButton_hidden a)
    (logoutButton_hidden a) (viewer_pagesCount a) (auth_currentUser a)
    (loading a).

Definition set_emailField_textContent (v : string) (a : AdminApp) : AdminApp :=
  mkAdminApp (_currentDeck a) (_currentPageNumber a) (deckNameInput_value a)
    (pageNumberInput_value a) (pagesCountSpan_textContent a)
    v (emailField_hidden a) (loginButton_hidden a)
    (logoutButton_hidden a) (viewer_pagesCount a) (auth_currentUser a)
    (loading a).

Definition set_emailField_hidden (v : bool) (a : AdminApp) : AdminApp :=
  mkAdminApp (_currentDeck a) (_currentPageNumber a) (deckNameInput_value a)
    (pageNumberInput_value a) (pagesCountSpan_textContent a)
    (emailField_textContent a) v (loginButton_hidden a)
    (logoutButton_hidden a) (viewer_pagesCount a) (auth_currentUser a)
    (loading a).

Definition set_loginButton_hidden (v : bool) (a : AdminApp) : AdminApp :=
  mkAdminApp (_currentDeck a) (_currentPageNumber a) (deckNameInput_value a)
    (pageNumberInput_value a) (pagesCountSpan_textContent a)
    (emailField_textContent a) (emailField_hidden a) v
    (logoutButton_hidden a) (viewer_pagesCount a) (auth_currentUser a)
    (loading a).

Definition set_logoutButton_hidden (v : bool) (a : AdminApp) : AdminApp :=
  mkAdminApp (_currentDeck a) (_currentPageNumber a) (deckNameInput_value a)
    (pageNumberInput_value a) (pagesCountSpan_textContent a)
    (emailField_textContent a) (emailField_hidden a) (loginButton_hidden a)
    v (viewer_pagesCount a) (auth_currentUser a)
    (loading a).

Definition set_viewer_pagesCount (v : Z) (a : AdminApp) : AdminApp :=
  mkAdminApp (_currentDeck a) (_currentPageNumber a) (deckNameInput_value a)
    (pageNumberInput_value a) (pagesCountSpan_textContent a)
    (emailField_textContent a) (emailField_hidden a) (loginButton_hidden a)
    (logoutButton_hidden a) v (auth_currentUser a)
    (loading a).

Definition set_auth_currentUser (v : option User) (a : AdminApp) : AdminApp :=
  mkAdminApp (_currentDeck a) (_currentPageNumber a) (deckNameInput_value a)
    (pageNumberInput_value a) (pagesCountSpan_textContent a)
    (emailField_textContent a) (emailField_hidden a) (loginButton_hidden a)
    (logoutButton_hidden a) (viewer_pagesCount a) v
    (loading a).

Definition set_loading (v : list JS.name) (a : AdminApp) : AdminApp :=
  mkAdminApp (_currentDeck a) (_currentPageNumber a) (deckNameInput_value a)
    (pageNumberInput_value a) (pagesCountSpan_textContent a)
    (emailField_textContent a) (emailField_hidden a) (loginButton_hidden a)
    (logoutButton_hidden a) (viewer_pagesCount a) (auth_currentUser a)
    v.

(** ** The class [AdminApp] *)

(** [set currentDeck(deckName)] *)
Definition currentDeck_set (deckName : JS.name) : Handler unit :=
  assign (set__currentDeck deckName) ;;
  assign (set_deckNameInput_value (JS.name_toString deckName)).

(** [set currentPageNumber(pageNumber)] *)
Definition currentPageNumber_set (pageNumber : JS.number) : Handler unit :=
  assign (set__currentPageNumber (Some pageNumber)) ;;
  assign (set_pageNumberInput_value (JS.number_toString pageNumber)) ;;
  call (viewer_currentPageNumber pageNumber).

Definition _onAuthStateChanged (user : option User) : Handler unit :=
  match user with
  | Some u =>
      assign (set_emailField_textContent (email u)) ;;
      assign (set_emailField_hidden false) ;;
      assign (set_loginButton_hidden true) ;;
      assign (set_logoutButton_hidden false)
  | None =>
      assign (set_emailField_hidden true) ;;
      assign (set_loginButton_hidden false) ;;
      assign (set_logoutButton_hidden true)
  end.

(** [doc.data()] of the presenter-state document. *)
Record DocumentData : Type := {
  currentDeck : JS.name;
  currentPageNumber : JS.field
}.

(** What [.then(...)] runs once the deck has loaded, with the [remoteDeck] it
    closed over, and what [.catch(...)] runs when the load failed. *)
Definition _updateDeck_then (remoteDeck : JS.name) : Handler unit :=
  currentDeck_set remoteDeck ;;
  pagesCount <- read viewer_pagesCount ;;
  assign (set_pagesCountSpan_textContent (JS.number_toString (JS.Int pagesCount))).

Definition _updateDeck_catch : Handler unit :=
  call (console_error "Error loading document: ").

(** [_onSnapshot(doc)].  The call [this._updateDeck(remoteDeck)] returns at
    once with a promise: the load is logged and joins [loading], and the two
    callbacks run later, when the promise settles. *)
Definition _onSnapshot (data : DocumentData) : Handler unit :=
  let remoteDeck := currentDeck data in
  let remotePage := JS.parseInt (currentPageNumber data) in
  this_currentDeck <- read _currentDeck ;;
  when (JS.name_neq this_currentDeck remoteDeck)
    (call (updateDeck remoteDeck) ;;
     inflight <- read loading ;;
     assign (set_loading (inflight ++ [remoteDeck])%list)) ;;
  this_currentPageNumber <- read _currentPageNumber ;;
  when (JS.number_neq remotePage this_currentPageNumber)
    (currentPageNumber_set remotePage).

(** [this.auth.currentUser != null] *)
Definition signed_in : Handler bool :=
  user <- read auth_currentUser ;;
  ret (match user with Some _ => true | None => false end).

(** [_onDeckNameInputChange(event)], from [event.target.value]. *)
Definition _onDeckNameInputChange (deckName : string) : Handler unit :=
  this_currentDeck <- read _currentDeck ;;
  when (JS.name_neq (JS.Str deckName) JS.Null
        && JS.name_neq (JS.Str deckName) this_currentDeck)
    (currentDeck_set (JS.Str deckName) ;;
     authenticated <- signed_in ;;
     when authenticated (call (updateDoc (currentDeck_is deckName)))).

(** [_onPageNumberInputChange(event)], from [event.target.value]. *)
Definition _onPageNumberInputChange (value : string) : Handler unit :=
  let pageNumber := JS.parseInt_string value in
  this_currentPageNumber <- read _currentPageNumber ;;
  when (JS.isInteger pageNumber
        && JS.number_neq pageNumber this_currentPageNumber)
    (currentPageNumber_set pageNumber ;;
     authenticated <- signed_in ;;
     when authenticated (call (updateDoc (currentPageNumber_is pageNumber)))).

(** [_onPageChangeButton(delta, event)]; [isInputEvent] is
    [event instanceof InputEvent]. *)
Definition _onPageChangeButton (delta : Z) (isInputEvent : bool) : Handler unit :=
  when isInputEvent (call preventDefault) ;;
  this_currentPageNumber <- read _currentPageNumber ;;
  pagesCount <- read viewer_pagesCount ;;
  let pageNumber :=
    clamp (JS.add this_currentPageNumber delta) (JS.Int 1) (JS.Int pagesCount) in
  when (JS.isInteger pageNumber
        && JS.number_neq pageNumber this_currentPageNumber)
    (currentPageNumber_set pageNumber ;;
     authenticated <- signed_in ;;
     when authenticated (call (updateDoc (currentPageNumber_is pageNumber)))).

Definition _onLoginButton : Handler unit :=
  call (location_replace "/login.html").

Definition _onLogoutButton : Handler unit :=
  call signOut.

(** The listener of ["pagesinit"] registered by the constructor. *)
Definition on_pagesinit : Handler unit :=
  pagesCount <- read viewer_pagesCount ;;
  assign (set_pagesCountSpan_textContent (JS.number_toString (JS.Int pagesCount))).

(** The listener of ['keydown'] registered by the constructor.  A keyboard
    event is no [InputEvent]. *)
Definition on_keydown (key : string) : Handler unit :=
  if String.eqb key "ArrowLeft" then _onPageChangeButton (-1) false
  else if String.eqb key "ArrowRight" then _onPageChangeButton 1 false
  else ret tt.

(** ** The event loop *)

(** What the browser delivers to one [AdminApp], one event at a time: the
    events of the listeners that the constructor registers, the settlement
    of the promises that [_onSnapshot] waits for, the changes of the page
    count that the viewer reports, and the changes of the presenter-state
    document, which the subscription of the base class hands to
    [_onSnapshot]. *)
Inductive event : Type :=
| snapshot (data : DocumentData)     (* the presenter-state document changed *)
| deck_loaded (i : nat)              (* the i-th load in flight succeeded *)
| deck_load_failed (i : nat)         (* the i-th load in flight failed *)
| viewer_pages (pagesCount : Z)      (* the viewer now holds that many pages *)
| pagesinit
| deckNameInput_change (value : string)
| pageNumberInput_change (value : string)
| prevPage_click
| nextPage_click
| keydown (key : string)
| loginButton_click
| logoutButton_click
| authStateChanged (user : option User).

Fixpoint remove_at {A : Type} (i : nat) (l : list A) : list A :=
  match l, i with
  | [], _ => []
  | _ :: r, O => r
  | x :: r, S j => x :: remove_at j r
  end.

(** Modelled from the spec: [this._updateDeck] is inherited from [ViewerApp],
    whose module ([index.js]) lies outside this file; it is the viewer's "load deck by
    identifier", which is asynchronous and "resolves when renderable or
    rejects with a load error".  Settling the i-th load in flight: its
    promise leaves [loading] and one of the two callbacks that [_onSnapshot]
    attached runs.  Nothing happens when there is no such load. *)
Definition settle (i : nat) (fulfilled : bool) : Handler unit :=
  inflight <- read loading ;;
  match nth_error inflight i with
  | Some remoteDeck =>
      assign (set_loading (remove_at i inflight)) ;;
      if fulfilled then _updateDeck_then remoteDeck else _updateDeck_catch
  | None => ret tt
  end.

(** A change event of a control reaches its handler after the control took
    the value the user gave it; a click is a pointer event, no [InputEvent];
    the auth provider has switched [currentUser] when it reports a change. *)
Definition dispatch (e : event) : Handler unit :=
  match e with
  | snapshot data => _onSnapshot data
  | deck_loaded i => settle i true
  | deck_load_failed i => settle i false
  | viewer_pages pagesCount => assign (set_viewer_pagesCount pagesCount)
  | pagesinit => on_pagesinit
  | deckNameInput_change value =>
      assign (set_deckNameInput_value value) ;; _onDeckNameInputChange value
  | pageNumberInput_change value =>
      assign (set_pageNumberInput_value value) ;; _onPageNumberInputChange value
  | prevPage_click => _onPageChangeButton (-1) false
  | nextPage_click => _onPageChangeButton 1 false
  | keydown key => on_keydown key
  | loginButton_click => _onLoginButton
  | logoutButton_click => _onLogoutButton
  | authStateChanged user =>
      assign (set_auth_currentUser user) ;; _onAuthStateChanged user
  end.

(** One turn of the event loop: the object afterwards and the calls made. *)
Definition step (this : AdminApp) (e : event) : AdminApp * list effect :=
  let '(_, this', log) := dispatch e this in (this', log).

Fixpoint run (this : AdminApp) (es : list event) : AdminApp * list effect :=
  match es with
  | [] => (this, [])
  | e :: r =>
      let '(this1, log1) := step this e in
      let '(this2, log2) := run this1 r in
      (this2, (log1 ++ log2)%list)
  end.

(** ** Reading the effect log *)

Definition is_remote_write (e : effect) : bool :=
  match e with updateDoc _ => true | _ => false end.

Definition is_deck_load (e : effect) : bool :=
  match e with updateDeck _ => true | _ => false end.

Definition is_viewer_call (e : effect) : bool :=
  match e with
  | updateDeck _ | viewer_currentPageNumber _ => true
  | _ => false
  end.

Definition remote_writes (log : list effect) : list effect :=
  filter is_remote_write log.

Definition deck_loads (log : list effect) : list effect :=
  filter is_deck_load log.

(** The pages the viewer was set to, in order. *)
Fixpoint viewer_pages_set (log : list effect) : list JS.number :=
  match log with
  | viewer_currentPageNumber p :: r => p :: viewer_pages_set r
  | _ :: r => viewer_pages_set r
  | [] => []
  end.

(** Events that come from the operator's input. *)
Definition user_input (e : event) : bool :=
  match e with
  | deckNameInput_change _ | pageNumberInput_change _
  | prevPage_click | nextPage_click | keydown _ => true
  | _ => false
  end.

(** The local page number is an integer of [1..pagesCount]. *)
Definition page_in_range (this : AdminApp) : bool :=
  match _currentPageNumber this with
  | Some (JS.Int p) => (1 <=? p) && (p <=? viewer_pagesCount this)
  | _ => false
  end.

(** A deck of ten pages named A shown at page 3, nobody signed in. *)
Definition deckA_page3 : AdminApp :=
  mkAdminApp (JS.Str "A") (Some (JS.Int 3)) "A" "3" "10" "" true false true
    10 None [].

Definition operator : User := {| email := "operator@example.org" |}.

Definition deckA_page3_signed_in : AdminApp :=
  mkAdminApp (JS.Str "A") (Some (JS.Int 3)) "A" "3" "10"
    "operator@example.org" false true false 10 (Some operator) [].

(** The calls that follow a local change: the write, when signed in. *)
Definition write_back (this : AdminApp) (data : update) : list effect :=
  match auth_currentUser this with
  | Some _ => [updateDoc data]
  | None => []
  end.

(** The step a navigation event asks for, as the constructor bound it: the
    two buttons, and the left and right arrow keys. *)
Definition navigation_delta (e : event) : option Z :=
  match e with
  | prevPage_click => Some (-1)
  | nextPage_click => Some 1
  | keydown key =>
      if String.eqb key "ArrowLeft" then Some (-1)
      else if String.eqb key "ArrowRight" then Some 1
      else None
  | _ => None
  end.

(** The integer page shown, if the local page number is one. *)
Definition shown_page (this : AdminApp) : option Z :=
  match _currentPageNumber this with
  | Some (JS.Int z) => Some z
  | _ => None
  end.

(** Of a run of notified pages, those that differ from the page shown when
    they arrive. *)
Fixpoint page_updates (shown : option Z) (pages : list Z) : list Z :=
  match pages with
  | [] => []
  | p :: r =>
      match shown with
      | Some q => if q =? p then page_updates shown r
                  else p :: page_updates (Some p) r
      | None => p :: page_updates (Some p) r
      end
  end.

(** A remote write of [data] is made exactly when somebody is signed in, and
    it is then the only one. *)
Definition write_gated (this : AdminApp) (log : list effect) (data : update) : Prop :=
  (In (updateDoc data) log <-> auth_currentUser this <> None) /\
  (auth_currentUser this <> None -> remote_writes log = [updateDoc data]) /\
  (auth_currentUser this = None -> remote_writes log = []).

(** What a turn that ends in [after] with the calls [log] owes the remote
    document: a field whose local value is new is written under the gate of
    [write_gated], and nothing is written when neither field changed. *)
Definition change_written (this after : AdminApp) (log : list effect) : Prop :=
  (forall deckName,
     _currentDeck after = JS.Str deckName ->
     _currentDeck this <> JS.Str deckName ->
     write_gated this log (currentDeck_is deckName)) /\
  (forall pageNumber,
     _currentPageNumber after = Some pageNumber ->
     _currentPageNumber this <> Some pageNumber ->
     write_gated this log (currentPageNumber_is pageNumber)) /\
  (_currentDeck after = _currentDeck this ->
   _currentPageNumber after = _currentPageNumber this ->
   remote_writes log = []).

(** ** The deck list and further readings of the state *)

(** An [<option>] element of the deck selector. *)
Record option_element : Type := {
  option_value : string;
  option_textContent : string
}.

(** The body of the [forEach] in the constructor: one option per deck
    document, named after its id, appended to the selector. *)
Definition append_deck_option (children : list option_element) (id : string)
  : list option_element :=
  (children ++ [{| option_value := id; option_textContent := id |}])%list.

(** [getDocs(collection(this.db, "decks")).then(querySnapshot => forEach ...)],
    over the ids of the documents in the order of the query snapshot. *)
Definition populate_deck_names (children : list option_element)
    (ids : list string) : list option_element :=
  fold_left append_deck_option ids children.

(** The login controls show the session: the e-mail field and the logout
    button are visible exactly when somebody is signed in, the login button
    exactly when nobody is. *)
Definition login_controls_show_session (this : AdminApp) : Prop :=
  match auth_currentUser this with
  | Some u =>
      emailField_textContent this = email u /\
      emailField_hidden this = false /\
      loginButton_hidden this = true /\
      logoutButton_hidden this = false
  | None =>
      emailField_hidden this = true /\
      loginButton_hidden this = false /\
      logoutButton_hidden this = true
  end.

(** The deck selector shows the stored deck name. *)
Definition selector_shows_deck (this : AdminApp) : Prop :=
  deckNameInput_value this = JS.name_toString (_currentDeck this).

(** The local page number is an integer. *)
Definition page_is_integer (this : AdminApp) : bool :=
  match _currentPageNumber this with
  | Some p => JS.isInteger p
  | None => false
  end.

Definition is_snapshot (e : event) : bool :=
  match e with snapshot _ => true | _ => false end.

(** A string of white space only. *)
Fixpoint blank (s : string) : bool :=
  match s with
  | EmptyString => true
  | String c r => JS.is_white_space c && blank r
  end.

(** ** Sanity checks of the JavaScript primitives *)

Example parseInt_examples :
  JS.parseInt_string "42" = JS.Int 42 /\
  JS.parseInt_string "  -7px" = JS.Int (-7) /\
  JS.parseInt_string "0x1f" = JS.Int 31 /\
  JS.parseInt_string "abc" = JS.NaN /\
  JS.parseInt_string "" = JS.NaN /\
  JS.parseInt JS.FUndefined = JS.NaN /\
  JS.parseInt (JS.FNumber (JS.Int 5)) = JS.Int 5 /\
  JS.parseInt (JS.FNumber (JS.Int (-12))) = JS.Int (-12) /\
  JS.parseInt (JS.FNumber JS.NaN) = JS.NaN.
Proof. repeat split; reflexivity. Qed.

(** *** [parseInt] reads back the decimal form of every integer *)

Lemma read_digits_of_uint_acc (d : Decimal.uint) (acc : positive) :
  JS.read_digits 10 (NilEmpty.string_of_uint d) (Z.pos acc) true
    = Some (Z.pos (Pos.of_uint_acc d acc)).
Proof.
  revert acc. induction d; intros acc; cbn [NilEmpty.string_of_uint];
    [reflexivity|..];
    cbn [JS.read_digits Pos.of_uint_acc];
    match goal with
    | |- context [JS.digit_value ?c] =>
        let v := eval vm_compute in (JS.digit_value c) in
        change (JS.digit_value c) with v
    end;
    cbv beta iota;
    match goal with
    | |- context [?k <? 10] => change (k <? 10) with true
    end;
    cbv beta iota; rewrite <- IHd; f_equal; lia.
Qed.

Lemma read_digits_of_uint (d : Decimal.uint) :
  JS.read_digits 10 (NilEmpty.string_of_uint d) 0 true
    = Some (Z.of_N (Pos.of_uint d)).
Proof.
  induction d; cbn [NilEmpty.string_of_uint]; [reflexivity|exact IHd|..];
    exact (read_digits_of_uint_acc d _).
Qed.

Lemma read_digits_first (d : Decimal.uint) :
  d <> Decimal.Nil ->
  JS.read_digits 10 (NilEmpty.string_of_uint d) 0 false
    = JS.read_digits 10 (NilEmpty.string_of_uint d) 0 true.
Proof. destruct d; [contradiction|reflexivity..]. Qed.

Lemma parseInt_digits (sign : Z) (d : Decimal.uint) :
  d <> Decimal.Nil ->
  (let '(radix, s) := JS.strip_radix (NilEmpty.string_of_uint d) in
   match JS.read_digits radix s 0 false with
   | Some n => JS.Int (sign * n)
   | None => JS.NaN
   end) = JS.Int (sign * Z.of_N (Pos.of_uint d)).
Proof.
  intros Hd.
  assert (Hradix : JS.strip_radix (NilEmpty.string_of_uint d)
                   = (10, NilEmpty.string_of_uint d)).
  { destruct d as [|d|d|d|d|d|d|d|d|d|d]; try reflexivity.
    destruct d; reflexivity. }
  rewrite Hradix, (read_digits_first d Hd), read_digits_of_uint.
  reflexivity.
Qed.

Lemma digits_unsigned (d : Decimal.uint) :
  d <> Decimal.Nil ->
  NilZero.string_of_uint d = NilEmpty.string_of_uint d /\
  JS.strip_sign (JS.trim_start (NilEmpty.string_of_uint d))
    = (1, NilEmpty.string_of_uint d).
Proof. destruct d; [contradiction|split; reflexivity..]. Qed.

Lemma strip_minus (s : string) :
  JS.strip_sign (JS.trim_start (String "-" s)) = (-1, s).
Proof. reflexivity. Qed.

Lemma parseInt_of_integer (z : Z) :
  JS.parseInt (JS.FNumber (JS.Int z)) = JS.Int z.
Proof.
  unfold JS.parseInt, JS.field_toString, JS.number_toString.
  destruct z as [|p|p]; [reflexivity|..];
    cbn [Z.to_int NilZero.string_of_int];
    pose proof (DecimalPos.Unsigned.to_uint_nonnil p) as Hnil;
    destruct (digits_unsigned _ Hnil) as [-> Hsign];
    unfold JS.parseInt_string.
  - rewrite Hsign, (parseInt_digits 1 _ Hnil), DecimalPos.Unsigned.of_to.
    reflexivity.
  - rewrite strip_minus, (parseInt_digits (-1) _ Hnil),
      DecimalPos.Unsigned.of_to.
    reflexivity.
Qed.

(** ** What each turn of the event loop does *)

(** Unfolds a handler down to the tests it makes. *)
Ltac run_handler :=
  cbv beta iota zeta delta
    [step dispatch settle on_keydown on_pagesinit _onSnapshot
     _onDeckNameInputChange _onPageNumberInputChange _onPageChangeButton
     _onLoginButton _onLogoutButton _onAuthStateChanged _updateDeck_then
     _updateDeck_catch currentDeck_set currentPageNumber_set signed_in
     when bind ret read assign call]; cbn [app].

(** Splits on every test left in the goal, innermost first. *)
Ltac case_tests :=
  repeat match goal with
  | |- context [match ?x with _ => _ end] =>
      lazymatch x with
      | context [match _ with _ => _ end] => fail
      | _ => destruct x; cbv beta iota
      end
  end.

Section Turns.

Variable this : AdminApp.

(** A notification for the deck shown touches the page number at most. *)
Lemma snapshot_same_deck (data : DocumentData) :
  JS.name_neq (_currentDeck this) (currentDeck data) = false ->
  step this (snapshot data) =
    let remotePage := JS.parseInt (currentPageNumber data) in
    if JS.number_neq remotePage (_currentPageNumber this)
    then (set_pageNumberInput_value (JS.number_toString remotePage)
            (set__currentPageNumber (Some remotePage) this),
          [viewer_currentPageNumber remotePage])
    else (this, []).
Proof.
  intros Hdeck. run_handler. rewrite Hdeck.
  destruct (JS.number_neq _ _); reflexivity.
Qed.

(** A notification for another deck starts its load first. *)
Lemma snapshot_other_deck (data : DocumentData) :
  JS.name_neq (_currentDeck this) (currentDeck data) = true ->
  step this (snapshot data) =
    let remotePage := JS.parseInt (currentPageNumber data) in
    let this1 := set_loading (loading this ++ [currentDeck data]) this in
    if JS.number_neq remotePage (_currentPageNumber this)
    then (set_pageNumberInput_value (JS.number_toString remotePage)
            (set__currentPageNumber (Some remotePage) this1),
          [updateDeck (currentDeck data); viewer_currentPageNumber remotePage])
    else (this1, [updateDeck (currentDeck data)]).
Proof.
  intros Hdeck. run_handler. rewrite Hdeck. cbn [_currentPageNumber set_loading].
  destruct (JS.number_neq _ _); reflexivity.
Qed.

Lemma deck_load_failed_pending (i : nat) (remoteDeck : JS.name) :
  nth_error (loading this) i = Some remoteDeck ->
  step this (deck_load_failed i) =
    (set_loading (remove_at i (loading this)) this,
     [console_error "Error loading document: "]).
Proof. intros Hi. run_handler. rewrite Hi. reflexivity. Qed.

Lemma deck_loaded_pending (i : nat) (remoteDeck : JS.name) :
  nth_error (loading this) i = Some remoteDeck ->
  step this (deck_loaded i) =
    (set_pagesCountSpan_textContent
       (JS.number_toString (JS.Int (viewer_pagesCount this)))
       (set_deckNameInput_value (JS.name_toString remoteDeck)
          (set__currentDeck remoteDeck
             (set_loading (remove_at i (loading this)) this))),
     []).
Proof. intros Hi. run_handler. rewrite Hi. reflexivity. Qed.

Lemma settle_not_pending (i : nat) (fulfilled : bool) :
  nth_error (loading this) i = None ->
  settle i fulfilled this = (tt, this, []).
Proof. intros Hi. run_handler. rewrite Hi. reflexivity. Qed.

Lemma deckNameInput_change_step (value : string) :
  step this (deckNameInput_change value) =
    if JS.name_neq (JS.Str value) (_currentDeck this)
    then (set_deckNameInput_value value (set__currentDeck (JS.Str value) this),
          write_back this (currentDeck_is value))
    else (set_deckNameInput_value value this, []).
Proof.
  run_handler. unfold write_back.
  change (JS.name_neq (JS.Str value) JS.Null) with true.
  cbn [andb _currentDeck set_deckNameInput_value].
  destruct (JS.name_neq _ _); [cbn; destruct (auth_currentUser this)|];
    reflexivity.
Qed.

Lemma pageNumberInput_change_step (value : string) :
  step this (pageNumberInput_change value) =
    let pageNumber := JS.parseInt_string value in
    if JS.isInteger pageNumber && JS.number_neq pageNumber (_currentPageNumber this)
    then (set_pageNumberInput_value (JS.number_toString pageNumber)
            (set__currentPageNumber (Some pageNumber) this),
          viewer_currentPageNumber pageNumber
            :: write_back this (currentPageNumber_is pageNumber))
    else (set_pageNumberInput_value value this, []).
Proof.
  run_handler. unfold write_back.
  cbn [_currentPageNumber set_pageNumberInput_value].
  destruct (JS.isInteger _ && JS.number_neq _ _);
    [cbn; destruct (auth_currentUser this)|]; reflexivity.
Qed.

Lemma _onPageChangeButton_click (delta : Z) :
  _onPageChangeButton delta false this =
    let pageNumber :=
      clamp (JS.add (_currentPageNumber this) delta) (JS.Int 1)
        (JS.Int (viewer_pagesCount this)) in
    if JS.isInteger pageNumber && JS.number_neq pageNumber (_currentPageNumber this)
    then (tt,
          set_pageNumberInput_value (JS.number_toString pageNumber)
            (set__currentPageNumber (Some pageNumber) this),
          viewer_currentPageNumber pageNumber
            :: write_back this (currentPageNumber_is pageNumber))
    else (tt, this, []).
Proof.
  run_handler. unfold write_back.
  destruct (JS.isInteger _ && JS.number_neq _ _);
    [cbn; destruct (auth_currentUser this)|]; reflexivity.
Qed.

End Turns.

Lemma navigation_step (this : AdminApp) (e : event) (delta : Z) :
  navigation_delta e = Some delta ->
  step this e =
    let '(_, this', log) := _onPageChangeButton delta false this in (this', log).
Proof.
  destruct e; cbn; try discriminate.
  - intros [= <-]. reflexivity.
  - intros [= <-]. reflexivity.
  - unfold step, dispatch, on_keydown.
    destruct (String.eqb key "ArrowLeft"); [intros [= <-]; reflexivity|].
    destruct (String.eqb key "ArrowRight"); [intros [= <-]; reflexivity|].
    discriminate.
Qed.

(** Whatever does not come from the operator's input writes nothing. *)
Lemma no_write_without_user_input (this : AdminApp) (e : event) :
  user_input e = false -> remote_writes (snd (step this e)) = [].
Proof.
  destruct e; cbn [user_input]; try discriminate; intros _;
    run_handler; case_tests; reflexivity.
Qed.

(** ** The scenarios of the specification *)

(** A page-number input that is no integer changes nothing and writes
    nothing. *)
Lemma unparsable_input_ignored (this : AdminApp) (value : string) :
  JS.parseInt_string value = JS.NaN ->
  step this (pageNumberInput_change value)
    = (set_pageNumberInput_value value this, []).
Proof.
  intros Hparse. rewrite pageNumberInput_change_step. cbv zeta.
  now rewrite Hparse.
Qed.

(** "Next" on the last page and "prev" on the first one do nothing. *)
Lemma next_on_last_page (this : AdminApp) :
  _currentPageNumber this = Some (JS.Int (viewer_pagesCount this)) ->
  1 <= viewer_pagesCount this ->
  step this nextPage_click = (this, []).
Proof.
  intros Hpage Hcount.
  rewrite (navigation_step this nextPage_click 1 eq_refl),
    _onPageChangeButton_click.
  cbv zeta. rewrite Hpage. unfold clamp.
  cbn [JS.add JS.Math_max JS.Math_min JS.isInteger JS.number_neq andb].
  replace (Z.min (Z.max (viewer_pagesCount this + 1) 1) (viewer_pagesCount this))
    with (viewer_pagesCount this) by lia.
  now rewrite Z.eqb_refl.
Qed.

Lemma prev_on_first_page (this : AdminApp) :
  _currentPageNumber this = Some (JS.Int 1) ->
  1 <= viewer_pagesCount this ->
  step this prevPage_click = (this, []).
Proof.
  intros Hpage Hcount.
  rewrite (navigation_step this prevPage_click (-1) eq_refl),
    _onPageChangeButton_click.
  cbv zeta. rewrite Hpage. unfold clamp.
  cbn [JS.add JS.Math_max JS.Math_min JS.isInteger JS.number_neq andb].
  replace (Z.min (Z.max (1 + -1) 1) (viewer_pagesCount this)) with 1 by lia.
  reflexivity.
Qed.

(** Deck A at page 3, then a notification of deck A at page 5: the page
    becomes 5, and the only call sets the viewer's page. *)
Example notified_page_applied :
  step deckA_page3_signed_in
    (snapshot {| currentDeck := JS.Str "A";
                 currentPageNumber := JS.FNumber (JS.Int 5) |})
  = (set_pageNumberInput_value "5"
       (set__currentPageNumber (Some (JS.Int 5)) deckA_page3_signed_in),
     [viewer_currentPageNumber (JS.Int 5)]).
Proof. reflexivity. Qed.

(** A notification of another deck starts its load; once the viewer holds
    the seven pages of that deck and the load succeeds, the deck name and
    the page-count display follow. *)
Example notified_deck_loaded :
  let data := {| currentDeck := JS.Str "B";
                 currentPageNumber := JS.FNumber (JS.Int 3) |} in
  let after := run deckA_page3 [snapshot data; viewer_pages 7; deck_loaded 0] in
  snd after = [updateDeck (JS.Str "B")] /\
  _currentDeck (fst after) = JS.Str "B" /\
  deckNameInput_value (fst after) = "B" /\
  pagesCountSpan_textContent (fst after) = "7".
Proof. repeat split; reflexivity. Qed.

(** ** Properties of the synchronisation *)

(** C7.  For all integers [v], [lo], [hi] with [lo <= hi], [clamp] returns
    [v] when [lo <= v <= hi], [lo] when [v < lo] and [hi] when [v > hi]. *)
Theorem clamp_integers (v lo hi : Z) :
  lo <= hi ->
  (lo <= v <= hi -> clamp (JS.Int v) (JS.Int lo) (JS.Int hi) = JS.Int v) /\
  (v < lo -> clamp (JS.Int v) (JS.Int lo) (JS.Int hi) = JS.Int lo) /\
  (v > hi -> clamp (JS.Int v) (JS.Int lo) (JS.Int hi) = JS.Int hi).
Proof.
  intros Hle. unfold clamp, JS.Math_min, JS.Math_max.
  split; [|split]; intros Hv; f_equal; lia.
Qed.

Lemma clamp_integers_witness :
  clamp (JS.Int 5) (JS.Int 1) (JS.Int 10) = JS.Int 5 /\
  clamp (JS.Int 0) (JS.Int 1) (JS.Int 10) = JS.Int 1 /\
  clamp (JS.Int 11) (JS.Int 1) (JS.Int 10) = JS.Int 10.
Proof.
  split; [|split].
  - apply (clamp_integers 5 1 10); lia.
  - apply (clamp_integers 0 1 10); lia.
  - apply (clamp_integers 11 1 10); lia.
Defined.

Lemma no_write_without_user_inputs (es : list event) (this : AdminApp) :
  forallb (fun e => negb (user_input e)) es = true ->
  remote_writes (snd (run this es)) = [].
Proof.
  revert this. induction es as [|e es IH]; intros this Hes; [reflexivity|].
  cbn [forallb] in Hes. apply andb_prop in Hes as [He Hes].
  apply negb_true_iff in He. cbn [run].
  pose proof (no_write_without_user_input this e He) as Hhead.
  destruct (step this e) as [this1 log1].
  specialize (IH this1 Hes).
  destruct (run this1 es) as [this2 log2].
  cbn [snd] in *. unfold remote_writes in *.
  now rewrite filter_app, Hhead, IH.
Qed.

(** C1.  Handling a remote change notification never issues a remote write,
    neither in [_onSnapshot] itself nor in the callbacks of the deck load it
    may start, whatever happens to the local deck and page; any turn of the
    event loop that does write was driven by the operator's input (deck
    selector, page-number field, prev/next buttons, arrow keys), so a run of
    turns without such input writes nothing. *)
Theorem remote_origin_never_writes (this : AdminApp) :
  (forall data, remote_writes (snd (step this (snapshot data))) = []) /\
  (forall i,
     remote_writes (snd (step this (deck_loaded i))) = [] /\
     remote_writes (snd (step this (deck_load_failed i))) = []) /\
  (forall e, remote_writes (snd (step this e)) <> [] -> user_input e = true) /\
  (forall es,
     forallb (fun e => negb (user_input e)) es = true ->
     remote_writes (snd (run this es)) = []).
Proof.
  split; [|split; [|split]].
  - intros data. now apply no_write_without_user_input.
  - intros i. split; now apply no_write_without_user_input.
  - intros e Hw. destruct (user_input e) eqn:He; [reflexivity|].
    exfalso. apply Hw. now apply no_write_without_user_input.
  - intros es. now apply no_write_without_user_inputs.
Qed.

Lemma remote_origin_never_writes_witness :
  remote_writes (snd (step deckA_page3_signed_in (pageNumberInput_change "7")))
    <> [] /\
  user_input (pageNumberInput_change "7") = true.
Proof.
  assert (Hw : remote_writes
                 (snd (step deckA_page3_signed_in (pageNumberInput_change "7")))
               <> []) by (vm_compute; discriminate).
  split; [exact Hw|].
  exact (proj1 (proj2 (proj2 (remote_origin_never_writes deckA_page3_signed_in)))
           (pageNumberInput_change "7") Hw).
Defined.

(** The write that follows a local change is gated by the session. *)
Lemma write_back_gated (this : AdminApp) (before : list effect) (data : update) :
  remote_writes before = [] ->
  write_gated this (before ++ write_back this data) data.
Proof.
  intros Hbefore.
  assert (Hnot : ~ In (updateDoc data) before).
  { intros Hin.
    assert (Hf : In (updateDoc data) (remote_writes before))
      by (apply filter_In; split; [exact Hin | reflexivity]).
    rewrite Hbefore in Hf. exact Hf. }
  unfold write_gated, write_back, remote_writes in *.
  rewrite filter_app, Hbefore.
  destruct (auth_currentUser this) as [u|]; cbn.
  - split; [|split].
    + split; [discriminate|]. intros _. apply in_or_app. right. now left.
    + reflexivity.
    + discriminate.
  - split; [|split].
    + split; [|congruence]. rewrite app_nil_r. intros Hin. now apply Hnot in Hin.
    + congruence.
    + reflexivity.
Qed.

Lemma name_neq_sym (a b : JS.name) : JS.name_neq a b = JS.name_neq b a.
Proof.
  destruct a as [| |s], b as [| |t]; cbn; try reflexivity.
  now rewrite String.eqb_sym.
Qed.

Lemma name_neq_same (s : string) : JS.name_neq (JS.Str s) (JS.Str s) = false.
Proof. cbn. now rewrite String.eqb_refl. Qed.

Lemma number_neq_differs (pageNumber : JS.number) (x : JS.slot) :
  JS.isInteger pageNumber && JS.number_neq pageNumber x = true ->
  x <> Some pageNumber.
Proof.
  intros Hguard ->. destruct pageNumber as [a|]; [|discriminate].
  cbn in Hguard. now rewrite Z.eqb_refl in Hguard.
Qed.

Lemma name_neq_differs (deckName : string) (d : JS.name) :
  JS.name_neq (JS.Str deckName) d = true -> d <> JS.Str deckName.
Proof. intros Hneq ->. now rewrite name_neq_same in Hneq. Qed.

(** The turn of a page handler: behind its guard the page is set and written
    back, otherwise the two local values stay. *)
Lemma page_change_written (this other : AdminApp) (pageNumber : JS.number) :
  _currentDeck other = _currentDeck this ->
  _currentPageNumber other = _currentPageNumber this ->
  forall result,
    result =
      (if JS.isInteger pageNumber
          && JS.number_neq pageNumber (_currentPageNumber this)
       then (set_pageNumberInput_value (JS.number_toString pageNumber)
               (set__currentPageNumber (Some pageNumber) this),
             viewer_currentPageNumber pageNumber
               :: write_back this (currentPageNumber_is pageNumber))
       else (other, [])) ->
    change_written this (fst result) (snd result).
Proof.
  intros Hdeck Hpage result ->.
  destruct (JS.isInteger _ && JS.number_neq _ _) eqn:Hguard; cbn [fst snd].
  - apply number_neq_differs in Hguard.
    split; [|split]; cbn.
    + intros deckName Hafter Hbefore. congruence.
    + intros q [= <-] _.
      now apply (write_back_gated this [viewer_currentPageNumber pageNumber]).
    + intros _ Hsame. congruence.
  - split; [|split].
    + intros deckName Hafter Hbefore. congruence.
    + intros q Hafter Hbefore. congruence.
    + reflexivity.
Qed.

(** On every turn driven by the operator's input, a write follows a change
    of the local value under the gate of the session, and only a change. *)
Lemma user_input_change_written (this : AdminApp) (e : event) :
  user_input e = true ->
  change_written this (fst (step this e)) (snd (step this e)).
Proof.
  intros He.
  destruct (navigation_delta e) as [delta|] eqn:Hnav.
  - apply page_change_written with (other := this)
      (pageNumber := clamp (JS.add (_currentPageNumber this) delta) (JS.Int 1)
                       (JS.Int (viewer_pagesCount this))); try reflexivity.
    rewrite (navigation_step this e delta Hnav), _onPageChangeButton_click.
    cbv zeta. now destruct (JS.isInteger _ && JS.number_neq _ _).
  - destruct e; try discriminate.
    + rewrite deckNameInput_change_step.
      destruct (JS.name_neq _ _) eqn:Hneq; cbn [fst snd].
      * apply name_neq_differs in Hneq. split; [|split]; cbn.
        -- intros deckName [= <-] _. now apply (write_back_gated this []).
        -- intros q Hafter Hbefore. congruence.
        -- intros Hsame. congruence.
      * split; [|split]; cbn; [congruence|congruence|reflexivity].
    + apply page_change_written
        with (other := set_pageNumberInput_value value this)
             (pageNumber := JS.parseInt_string value); try reflexivity.
      now rewrite pageNumberInput_change_step.
    + cbn in Hnav. unfold step, dispatch, on_keydown.
      destruct (String.eqb key "ArrowLeft"); [discriminate|].
      destruct (String.eqb key "ArrowRight"); [discriminate|].
      split; [|split]; cbn; [congruence|congruence|reflexivity].
Qed.

(** C2.  A change that comes from the operator's input and whose new value
    differs from the local one (a deck name picked in the selector, the
    integer typed in the page-number field, the clamped page that prev/next
    or an arrow key leads to) is applied locally, and the remote write of the
    changed field is issued if and only if somebody is signed in: with no
    session the local change is all that happens.  Read on the outcome of
    any turn driven by the operator's input: a field whose local value is
    new is written if and only if somebody is signed in, and a turn that
    changes neither field writes nothing. *)
Theorem user_change_written_iff_signed_in (this : AdminApp) :
  (forall value,
     JS.name_neq (JS.Str value) (_currentDeck this) = true ->
     _currentDeck (fst (step this (deckNameInput_change value))) = JS.Str value /\
     write_gated this (snd (step this (deckNameInput_change value)))
       (currentDeck_is value)) /\
  (forall value n,
     JS.parseInt_string value = JS.Int n ->
     JS.number_neq (JS.Int n) (_currentPageNumber this) = true ->
     _currentPageNumber (fst (step this (pageNumberInput_change value)))
       = Some (JS.Int n) /\
     write_gated this (snd (step this (pageNumberInput_change value)))
       (currentPageNumber_is (JS.Int n))) /\
  (forall e delta n,
     navigation_delta e = Some delta ->
     clamp (JS.add (_currentPageNumber this) delta) (JS.Int 1)
       (JS.Int (viewer_pagesCount this)) = JS.Int n ->
     JS.number_neq (JS.Int n) (_currentPageNumber this) = true ->
     _currentPageNumber (fst (step this e)) = Some (JS.Int n) /\
     write_gated this (snd (step this e)) (currentPageNumber_is (JS.Int n))) /\
  (forall e,
     user_input e = true ->
     change_written this (fst (step this e)) (snd (step this e))).
Proof.
  split; [|split; [|split]]; [| | |apply user_input_change_written].
  - intros value Hneq. rewrite deckNameInput_change_step, Hneq. cbn [fst snd].
    split; [reflexivity|].
    now apply (write_back_gated this []).
  - intros value n Hparse Hneq.
    rewrite pageNumberInput_change_step. cbv zeta. rewrite Hparse, Hneq.
    cbn [JS.isInteger andb fst snd]. split; [reflexivity|].
    now apply (write_back_gated this [viewer_currentPageNumber (JS.Int n)]).
  - intros e delta n He Hclamp Hneq.
    rewrite (navigation_step this e delta He), _onPageChangeButton_click.
    cbv zeta. rewrite Hclamp, Hneq. cbn [JS.isInteger andb fst snd].
    split; [reflexivity|].
    now apply (write_back_gated this [viewer_currentPageNumber (JS.Int n)]).
Qed.

Lemma user_change_written_iff_signed_in_witness :
  (_currentDeck (fst (step deckA_page3_signed_in (deckNameInput_change "B")))
     = JS.Str "B" /\
   write_gated deckA_page3_signed_in
     (snd (step deckA_page3_signed_in (deckNameInput_change "B")))
     (currentDeck_is "B")) /\
  (_currentPageNumber (fst (step deckA_page3 (pageNumberInput_change "7")))
     = Some (JS.Int 7) /\
   write_gated deckA_page3
     (snd (step deckA_page3 (pageNumberInput_change "7")))
     (currentPageNumber_is (JS.Int 7))) /\
  (_currentPageNumber (fst (step deckA_page3_signed_in nextPage_click))
     = Some (JS.Int 4) /\
   write_gated deckA_page3_signed_in
     (snd (step deckA_page3_signed_in nextPage_click))
     (currentPageNumber_is (JS.Int 4))).
Proof.
  split; [|split].
  - apply (proj1 (user_change_written_iff_signed_in deckA_page3_signed_in)).
    reflexivity.
  - apply (proj1 (proj2 (user_change_written_iff_signed_in deckA_page3))
             "7" 7); reflexivity.
  - apply (proj1 (proj2 (proj2 (user_change_written_iff_signed_in
                                  deckA_page3_signed_in)))
             nextPage_click 1 4); reflexivity.
Defined.

(** C3, as stated, fails: a page typed in the page-number field or notified
    by the remote document is applied as it is, so from page 3 of a deck of
    ten pages either leaves the local page at 99; navigation itself yields
    page 0 while the viewer holds no page, and leaves a page number that is
    no integer as it is. *)
Lemma page_leaves_range :
  page_in_range deckA_page3 = true /\
  page_in_range (fst (step deckA_page3 (pageNumberInput_change "99"))) = false /\
  page_in_range
    (fst (step deckA_page3
            (snapshot {| currentDeck := JS.Str "A";
                         currentPageNumber := JS.FNumber (JS.Int 99) |})))
    = false /\
  _currentPageNumber (fst (step (set_viewer_pagesCount 0 deckA_page3) prevPage_click))
    = Some (JS.Int 0) /\
  _currentPageNumber
    (fst (step (set__currentPageNumber (Some JS.NaN) deckA_page3) nextPage_click))
    = Some JS.NaN.
Proof. repeat split; reflexivity. Qed.

(** C3, amended.  After prev/next navigation (buttons or arrow keys) from an
    integer page number, the viewer holding at least one page, the local
    page number lies in [1, pagesCount]; a page-number field change that
    parses to an integer and a remote notification leave the local page
    number at the typed, respectively notified, value, unclamped. *)
Theorem navigation_keeps_page_in_range (this : AdminApp) :
  (forall e delta c,
     navigation_delta e = Some delta ->
     _currentPageNumber this = Some (JS.Int c) ->
     1 <= viewer_pagesCount this ->
     page_in_range (fst (step this e)) = true) /\
  (forall value n,
     JS.parseInt_string value = JS.Int n ->
     _currentPageNumber (fst (step this (pageNumberInput_change value)))
       = Some (JS.Int n)) /\
  (forall data,
     _currentPageNumber (fst (step this (snapshot data)))
       = Some (JS.parseInt (currentPageNumber data))).
Proof.
  split; [|split].
  - intros e delta c He Hc Hpages.
    rewrite (navigation_step this e delta He), _onPageChangeButton_click.
    cbv zeta. rewrite Hc. unfold clamp. cbn [JS.add JS.Math_max JS.Math_min].
    cbn [JS.isInteger JS.number_neq andb].
    destruct (negb _) eqn:Hneq; unfold page_in_range; cbn.
    + apply andb_true_intro. split; apply Z.leb_le; lia.
    + rewrite Hc. apply negb_false_iff, Z.eqb_eq in Hneq.
      apply andb_true_intro. split; apply Z.leb_le; lia.
  - intros value n Hparse.
    rewrite pageNumberInput_change_step. cbv zeta. rewrite Hparse.
    cbn [JS.isInteger andb].
    destruct (JS.number_neq _ _) eqn:Hneq; cbn [fst]; [reflexivity|].
    cbn. unfold JS.number_neq in Hneq.
    destruct (_currentPageNumber this) as [[b|]|]; try discriminate.
    apply negb_false_iff, Z.eqb_eq in Hneq. now subst.
  - intros data.
    destruct (JS.name_neq (_currentDeck this) (currentDeck data)) eqn:Hdeck;
      [rewrite snapshot_other_deck by assumption
      |rewrite snapshot_same_deck by assumption];
      cbv zeta;
      (destruct (JS.number_neq _ _) eqn:Hneq; cbn [fst]; [reflexivity|]);
      cbn; unfold JS.number_neq in Hneq;
      destruct (JS.parseInt _); try discriminate;
      destruct (_currentPageNumber this) as [[b|]|]; try discriminate;
      apply negb_false_iff, Z.eqb_eq in Hneq; now subst.
Qed.

Lemma navigation_keeps_page_in_range_witness :
  page_in_range (fst (step deckA_page3 nextPage_click)) = true /\
  _currentPageNumber (fst (step deckA_page3 (pageNumberInput_change "99")))
    = Some (JS.Int 99).
Proof.
  split.
  - apply (proj1 (navigation_keeps_page_in_range deckA_page3)
             nextPage_click 1 3).
    + reflexivity.
    + reflexivity.
    + cbn. lia.
  - apply (proj1 (proj2 (navigation_keeps_page_in_range deckA_page3)) "99" 99).
    reflexivity.
Defined.

(** C4.  Only navigation by a delta clamps.  A page-number field input that
    parses to an integer different from the current page is applied as it
    is, whatever the page count: it becomes the local page number, the value
    of the field and the page the viewer is set to, and it is written to the
    remote document exactly when somebody is signed in.  Prev/next (buttons
    or arrow keys) computes [clamp(current + delta, 1, pagesCount)]: from an
    integer page, that is the local page number afterwards; when the result
    is no integer, nothing happens. *)
Theorem direct_input_unclamped_navigation_clamped (this : AdminApp) :
  (forall value n,
     JS.parseInt_string value = JS.Int n ->
     JS.number_neq (JS.Int n) (_currentPageNumber this) = true ->
     _currentPageNumber (fst (step this (pageNumberInput_change value)))
       = Some (JS.Int n) /\
     pageNumberInput_value (fst (step this (pageNumberInput_change value)))
       = JS.number_toString (JS.Int n) /\
     viewer_pages_set (snd (step this (pageNumberInput_change value)))
       = [JS.Int n] /\
     write_gated this (snd (step this (pageNumberInput_change value)))
       (currentPageNumber_is (JS.Int n))) /\
  (forall e delta,
     navigation_delta e = Some delta ->
     (forall c,
        _currentPageNumber this = Some (JS.Int c) ->
        _currentPageNumber (fst (step this e))
          = Some (clamp (JS.Int (c + delta)) (JS.Int 1)
                    (JS.Int (viewer_pagesCount this))) /\
        clamp (JS.Int (c + delta)) (JS.Int 1) (JS.Int (viewer_pagesCount this))
          = JS.Int (Z.min (Z.max (c + delta) 1) (viewer_pagesCount this))) /\
     (JS.isInteger
        (clamp (JS.add (_currentPageNumber this) delta) (JS.Int 1)
           (JS.Int (viewer_pagesCount this))) = false ->
      step this e = (this, []))).
Proof.
  split.
  - intros value n Hparse Hneq.
    rewrite pageNumberInput_change_step. cbv zeta. rewrite Hparse, Hneq.
    cbn [JS.isInteger andb fst snd].
    split; [reflexivity|split; [reflexivity|split]].
    + unfold write_back. now destruct (auth_currentUser this).
    + now apply (write_back_gated this [viewer_currentPageNumber (JS.Int n)]).
  - intros e delta He.
    rewrite (navigation_step this e delta He), _onPageChangeButton_click.
    cbv zeta. split.
    + intros c Hc. rewrite Hc. unfold clamp.
      cbn [JS.add JS.Math_max JS.Math_min JS.isInteger JS.number_neq andb].
      split; [|reflexivity].
      destruct (negb _) eqn:Hneq; cbn [fst]; [reflexivity|].
      rewrite Hc. apply negb_false_iff, Z.eqb_eq in Hneq. now rewrite Hneq.
    + intros Hint. rewrite Hint. reflexivity.
Qed.

Lemma direct_input_unclamped_navigation_clamped_witness :
  (JS.parseInt_string "99" = JS.Int 99 /\
   _currentPageNumber (fst (step deckA_page3 (pageNumberInput_change "99")))
     = Some (JS.Int 99)) /\
  _currentPageNumber (fst (step deckA_page3 (keydown "ArrowRight")))
    = Some (clamp (JS.Int (3 + 1)) (JS.Int 1) (JS.Int 10)) /\
  step (set__currentPageNumber None deckA_page3) prevPage_click
    = (set__currentPageNumber None deckA_page3, []).
Proof.
  split; [|split].
  - split; [reflexivity|].
    apply (proj1 (direct_input_unclamped_navigation_clamped deckA_page3)
             "99" 99); reflexivity.
  - apply (proj1 (proj2 (direct_input_unclamped_navigation_clamped deckA_page3)
                    (keydown "ArrowRight") 1 eq_refl) 3 eq_refl).
  - apply (proj2 (proj2 (direct_input_unclamped_navigation_clamped
                           (set__currentPageNumber None deckA_page3))
                    prevPage_click (-1) eq_refl)).
    reflexivity.
Defined.

(** C9.  [_onSnapshot] applies the parsed page number without checking that
    it is an integer: a notification whose [currentPageNumber] does not
    parse (a missing or non-numeric field) sets the local page number to
    [NaN], whatever it was, since [NaN] differs from everything, and hands
    [NaN] to the page field and to the viewer. *)
Theorem snapshot_applies_unparsable_page (this : AdminApp) (data : DocumentData) :
  JS.parseInt (currentPageNumber data) = JS.NaN ->
  _currentPageNumber (fst (step this (snapshot data))) = Some JS.NaN /\
  pageNumberInput_value (fst (step this (snapshot data))) = "NaN" /\
  viewer_pages_set (snd (step this (snapshot data))) = [JS.NaN].
Proof.
  intros Hparse.
  destruct (JS.name_neq (_currentDeck this) (currentDeck data)) eqn:Hdeck;
    [rewrite snapshot_other_deck by assumption
    |rewrite snapshot_same_deck by assumption];
    cbv zeta; rewrite Hparse; cbn; repeat split; reflexivity.
Qed.

Lemma snapshot_applies_unparsable_page_witness :
  JS.parseInt JS.FUndefined = JS.NaN /\
  _currentPageNumber
    (fst (step deckA_page3
            (snapshot {| currentDeck := JS.Str "A";
                         currentPageNumber := JS.FUndefined |})))
    = Some JS.NaN.
Proof.
  split; [reflexivity|].
  apply (snapshot_applies_unparsable_page deckA_page3
           {| currentDeck := JS.Str "A"; currentPageNumber := JS.FUndefined |}).
  reflexivity.
Defined.

Lemma nth_error_last_added {A : Type} (l : list A) (x : A) :
  nth_error (l ++ [x])%list (List.length l) = Some x.
Proof. induction l as [|y l IH]; [reflexivity | exact IH]. Qed.

Lemma remove_at_last_added {A : Type} (l : list A) (x : A) :
  remove_at (List.length l) (l ++ [x])%list = l.
Proof. induction l as [|y l IH]; [reflexivity | cbn; now rewrite IH]. Qed.

Lemma remove_at_shortens {A : Type} (i : nat) (l : list A) (x : A) :
  nth_error l i = Some x -> S (List.length (remove_at i l)) = List.length l.
Proof.
  revert i. induction l as [|y l IH]; intros [|i] Hi; try discriminate.
  - reflexivity.
  - cbn. f_equal. now apply IH.
Qed.

(** C8.  A notification naming another deck starts one load of it and
    leaves the deck name, the deck selector and the page-count display as
    they are.  When a load in flight fails, the failure is logged and
    nothing else is called (no second load), the deck name, the selector and
    the page-count display keep their value, and the load is over.  So a
    notification for another deck followed by the failure of its load ends
    with the deck state it started from, after one load and one log. *)
Theorem failed_deck_load_keeps_deck (this : AdminApp) :
  (forall i remoteDeck,
     nth_error (loading this) i = Some remoteDeck ->
     snd (step this (deck_load_failed i))
       = [console_error "Error loading document: "] /\
     _currentDeck (fst (step this (deck_load_failed i))) = _currentDeck this /\
     deckNameInput_value (fst (step this (deck_load_failed i)))
       = deckNameInput_value this /\
     pagesCountSpan_textContent (fst (step this (deck_load_failed i)))
       = pagesCountSpan_textContent this /\
     S (List.length (loading (fst (step this (deck_load_failed i)))))
       = List.length (loading this)) /\
  (forall data,
     JS.name_neq (_currentDeck this) (currentDeck data) = true ->
     deck_loads (snd (step this (snapshot data)))
       = [updateDeck (currentDeck data)] /\
     _currentDeck (fst (step this (snapshot data))) = _currentDeck this /\
     pagesCountSpan_textContent (fst (step this (snapshot data)))
       = pagesCountSpan_textContent this /\
     let failure := deck_load_failed (List.length (loading this)) in
     let after := run this [snapshot data; failure] in
     _currentDeck (fst after) = _currentDeck this /\
     deckNameInput_value (fst after) = deckNameInput_value this /\
     pagesCountSpan_textContent (fst after) = pagesCountSpan_textContent this /\
     loading (fst after) = loading this /\
     deck_loads (snd after) = [updateDeck (currentDeck data)] /\
     In (console_error "Error loading document: ") (snd after)).
Proof.
  split.
  - intros i remoteDeck Hi.
    rewrite (deck_load_failed_pending this i remoteDeck Hi). cbn.
    repeat split. now apply remove_at_shortens with remoteDeck.
  - intros data Hdeck. cbv zeta. cbn [run].
    rewrite (snapshot_other_deck this data Hdeck). cbv zeta.
    destruct (JS.number_neq _ _).
    + rewrite (deck_load_failed_pending _ _ (currentDeck data))
        by apply nth_error_last_added.
      cbn. rewrite remove_at_last_added. repeat split. tauto.
    + rewrite (deck_load_failed_pending _ _ (currentDeck data))
        by apply nth_error_last_added.
      cbn. rewrite remove_at_last_added. repeat split. tauto.
Qed.

Lemma failed_deck_load_keeps_deck_witness :
  let data := {| currentDeck := JS.Str "B";
                 currentPageNumber := JS.FNumber (JS.Int 5) |} in
  JS.name_neq (_currentDeck deckA_page3) (currentDeck data) = true /\
  _currentDeck (fst (run deckA_page3 [snapshot data; deck_load_failed 0]))
    = JS.Str "A" /\
  pagesCountSpan_textContent
    (fst (run deckA_page3 [snapshot data; deck_load_failed 0])) = "10".
Proof.
  intros data. split; [reflexivity|].
  pose proof (proj2 (failed_deck_load_keeps_deck deckA_page3) data eq_refl)
    as (_ & _ & _ & Hdeck & _ & Hcount & _).
  split; [exact Hdeck | exact Hcount].
Defined.

(** C10.  A change of the deck selector never calls the viewer: it stores
    the deck name and the selector's value and nothing else, and calls
    nothing but the remote write made when signed in.  A turn of the event
    loop that starts a deck load handles a remote notification whose
    [currentDeck] differs from the local one; so the notification that
    echoes a local deck change, carrying the same name, loads nothing. *)
Theorem local_deck_change_loads_nothing (this : AdminApp) :
  (forall value,
     filter is_viewer_call (snd (step this (deckNameInput_change value))) = [] /\
     fst (step this (deckNameInput_change value))
       = set_deckNameInput_value value
           (if JS.name_neq (JS.Str value) (_currentDeck this)
            then set__currentDeck (JS.Str value) this else this) /\
     snd (step this (deckNameInput_change value))
       = (if JS.name_neq (JS.Str value) (_currentDeck this)
          then write_back this (currentDeck_is value) else [])) /\
  (forall e,
     deck_loads (snd (step this e)) <> [] ->
     exists data,
       e = snapshot data /\
       JS.name_neq (_currentDeck this) (currentDeck data) = true) /\
  (forall value page,
     deck_loads
       (snd (step (fst (step this (deckNameInput_change value)))
               (snapshot {| currentDeck := JS.Str value;
                            currentPageNumber := page |}))) = []).
Proof.
  split; [|split].
  - intros value. rewrite deckNameInput_change_step.
    destruct (JS.name_neq _ _); cbn [fst snd]; repeat split.
    unfold write_back. now destruct (auth_currentUser this).
  - intros e Hload. destruct e;
      try (exfalso; apply Hload; run_handler; case_tests; reflexivity).
    exists data. split; [reflexivity|].
    destruct (JS.name_neq (_currentDeck this) (currentDeck data)) eqn:Hdeck;
      [reflexivity|].
    exfalso. apply Hload. rewrite snapshot_same_deck by assumption.
    cbv zeta. now destruct (JS.number_neq _ _).
  - intros value page. rewrite deckNameInput_change_step.
    destruct (JS.name_neq (JS.Str value) (_currentDeck this)) eqn:Hdeck;
      cbn [fst].
    + rewrite snapshot_same_deck by apply name_neq_same.
      cbv zeta. now destruct (JS.number_neq _ _).
    + rewrite snapshot_same_deck by (cbn; now rewrite name_neq_sym).
      cbv zeta. now destruct (JS.number_neq _ _).
Qed.

Lemma local_deck_change_loads_nothing_witness :
  deck_loads
    (snd (step deckA_page3
            (snapshot {| currentDeck := JS.Str "B";
                         currentPageNumber := JS.FNumber (JS.Int 3) |}))) <> [] /\
  exists data,
    snapshot {| currentDeck := JS.Str "B";
                currentPageNumber := JS.FNumber (JS.Int 3) |} = snapshot data /\
    JS.name_neq (_currentDeck deckA_page3) (currentDeck data) = true.
Proof.
  assert (Hload : deck_loads
            (snd (step deckA_page3
                    (snapshot {| currentDeck := JS.Str "B";
                                 currentPageNumber := JS.FNumber (JS.Int 3) |})))
            <> []) by (vm_compute; discriminate).
  split; [exact Hload|].
  exact (proj1 (proj2 (local_deck_change_loads_nothing deckA_page3)) _ Hload).
Defined.

(** C6, as stated, fails for the deck: with nobody signed in, picking deck B
    stores the name and shows it in the selector, but the viewer is not
    called at all. *)
Lemma local_deck_change_skips_viewer :
  auth_currentUser deckA_page3 = None /\
  _currentDeck (fst (step deckA_page3 (deckNameInput_change "B"))) = JS.Str "B" /\
  deckNameInput_value (fst (step deckA_page3 (deckNameInput_change "B"))) = "B" /\
  filter is_viewer_call (snd (step deckA_page3 (deckNameInput_change "B"))) = [].
Proof. repeat split; reflexivity. Qed.

(** C6, amended.  With no auth session, no turn of the event loop issues a
    remote write; a local page change (page-number field, prev/next, arrow
    keys) updates the page field and sets the viewer to the new page, and
    that is the only call; a local deck change updates the stored deck name
    and the deck selector and calls nothing, the viewer included. *)
Theorem signed_out_changes_stay_local (this : AdminApp) :
  auth_currentUser this = None ->
  (forall e, remote_writes (snd (step this e)) = []) /\
  (forall value n,
     JS.parseInt_string value = JS.Int n ->
     JS.number_neq (JS.Int n) (_currentPageNumber this) = true ->
     _currentPageNumber (fst (step this (pageNumberInput_change value)))
       = Some (JS.Int n) /\
     pageNumberInput_value (fst (step this (pageNumberInput_change value)))
       = JS.number_toString (JS.Int n) /\
     snd (step this (pageNumberInput_change value))
       = [viewer_currentPageNumber (JS.Int n)]) /\
  (forall e delta n,
     navigation_delta e = Some delta ->
     clamp (JS.add (_currentPageNumber this) delta) (JS.Int 1)
       (JS.Int (viewer_pagesCount this)) = JS.Int n ->
     JS.number_neq (JS.Int n) (_currentPageNumber this) = true ->
     _currentPageNumber (fst (step this e)) = Some (JS.Int n) /\
     pageNumberInput_value (fst (step this e)) = JS.number_toString (JS.Int n) /\
     snd (step this e) = [viewer_currentPageNumber (JS.Int n)]) /\
  (forall value,
     JS.name_neq (JS.Str value) (_currentDeck this) = true ->
     _currentDeck (fst (step this (deckNameInput_change value))) = JS.Str value /\
     deckNameInput_value (fst (step this (deckNameInput_change value))) = value /\
     snd (step this (deckNameInput_change value)) = []).
Proof.
  intros Hout.
  assert (Hback : forall data, write_back this data = [])
    by (intros data; unfold write_back; now rewrite Hout).
  split; [|split; [|split]].
  - intros e. destruct (user_input e) eqn:He;
      [|now apply no_write_without_user_input].
    destruct e; try discriminate.
    + rewrite deckNameInput_change_step, Hback. now destruct (JS.name_neq _ _).
    + rewrite pageNumberInput_change_step. cbv zeta. rewrite ?Hback.
      now destruct (JS.isInteger _ && JS.number_neq _ _).
    + rewrite (navigation_step this prevPage_click (-1) eq_refl),
        _onPageChangeButton_click. cbv zeta. rewrite ?Hback.
      now destruct (JS.isInteger _ && JS.number_neq _ _).
    + rewrite (navigation_step this nextPage_click 1 eq_refl),
        _onPageChangeButton_click. cbv zeta. rewrite ?Hback.
      now destruct (JS.isInteger _ && JS.number_neq _ _).
    + destruct (navigation_delta (keydown key)) as [delta|] eqn:Hkey.
      * rewrite (navigation_step this _ delta Hkey),
          _onPageChangeButton_click. cbv zeta. rewrite ?Hback.
        now destruct (JS.isInteger _ && JS.number_neq _ _).
      * cbn in Hkey. unfold step, dispatch, on_keydown.
        destruct (String.eqb key "ArrowLeft"); [discriminate|].
        destruct (String.eqb key "ArrowRight"); [discriminate|].
        reflexivity.
  - intros value n Hparse Hneq.
    rewrite pageNumberInput_change_step. cbv zeta. rewrite ?Hback.
    rewrite Hparse, Hneq. repeat split.
  - intros e delta n He Hclamp Hneq.
    rewrite (navigation_step this e delta He), _onPageChangeButton_click.
    cbv zeta. rewrite Hback, Hclamp, Hneq. repeat split.
  - intros value Hneq.
    rewrite deckNameInput_change_step, Hback, Hneq. repeat split.
Qed.

Lemma signed_out_changes_stay_local_witness :
  auth_currentUser deckA_page3 = None /\
  snd (step deckA_page3 (pageNumberInput_change "7"))
    = [viewer_currentPageNumber (JS.Int 7)] /\
  snd (step deckA_page3 (deckNameInput_change "B")) = [].
Proof.
  split; [reflexivity|].
  pose proof (signed_out_changes_stay_local deckA_page3 eq_refl)
    as (_ & Hfield & _ & Hdeck).
  split.
  - apply (Hfield "7" 7); reflexivity.
  - apply (Hdeck "B"). reflexivity.
Defined.

(** Notifications that carry integer page numbers, as the presenter state
    has them, all parse. *)
Lemma notified_integers_parse (deck : JS.name) (pages : list Z) :
  map (fun data => JS.parseInt (currentPageNumber data))
    (map (fun p => {| currentDeck := deck;
                      currentPageNumber := JS.FNumber (JS.Int p) |}) pages)
  = map JS.Int pages.
Proof.
  induction pages as [|p pages IH]; [reflexivity|].
  cbn [map currentPageNumber]. now rewrite parseInt_of_integer, IH.
Qed.

(** C5, as stated, fails when the notified page does not parse: such a
    notification sets the viewer's page each time it arrives, also when it
    repeats the page the handler has just stored. *)
Lemma repeated_unparsable_page_sets_viewer_again :
  let data := {| currentDeck := JS.Str "A"; currentPageNumber := JS.FUndefined |} in
  let this1 := fst (step deckA_page3 (snapshot data)) in
  JS.name_neq (_currentDeck deckA_page3) (currentDeck data) = false /\
  _currentPageNumber this1 = Some (JS.parseInt (currentPageNumber data)) /\
  viewer_pages_set (snd (step this1 (snapshot data))) = [JS.NaN] /\
  viewer_pages_set (snd (run deckA_page3 [snapshot data; snapshot data]))
    = [JS.NaN; JS.NaN].
Proof. repeat split; reflexivity. Qed.

(** The page shown follows the integer that a notification carries. *)
Lemma page_updates_step (this : AdminApp) (p : Z) (pages : list Z) :
  page_updates (shown_page this) (p :: pages) =
    if JS.number_neq (JS.Int p) (_currentPageNumber this)
    then p :: page_updates (Some p) pages
    else page_updates (shown_page this) pages.
Proof.
  unfold shown_page. cbn.
  destruct (_currentPageNumber this) as [[q|]|]; cbn; try reflexivity.
  destruct (Z.eqb_spec q p), (Z.eqb_spec p q); cbn; try reflexivity; lia.
Qed.

(** C5, amended.  Over any sequence of remote notifications whose
    [currentDeck] equals the local deck and whose [currentPageNumber] parses
    to an integer, no deck load is invoked and nothing is written; only the
    local page number and the page field change; the viewer's page is set
    exactly once for each notified page that differs from the page shown
    when it arrives, and these are the only calls made: a notification that
    repeats the current page causes no update. *)
Theorem same_deck_notifications_set_page_once
    (ds : list DocumentData) (pages : list Z) (this : AdminApp) :
  Forall (fun data => JS.name_neq (_currentDeck this) (currentDeck data) = false)
    ds ->
  map (fun data => JS.parseInt (currentPageNumber data)) ds = map JS.Int pages ->
  snd (run this (map snapshot ds))
    = map (fun p => viewer_currentPageNumber (JS.Int p))
        (page_updates (shown_page this) pages) /\
  deck_loads (snd (run this (map snapshot ds))) = [] /\
  exists page value,
    fst (run this (map snapshot ds))
      = set_pageNumberInput_value value (set__currentPageNumber page this).
Proof.
  revert pages this.
  induction ds as [|data ds IH]; intros pages this Hdecks Hpages.
  - destruct pages; [|discriminate]. cbn. repeat split.
    exists (_currentPageNumber this), (pageNumberInput_value this).
    now destruct this.
  - destruct pages as [|p pages]; [discriminate|].
    injection Hpages as Hp Hpages.
    apply Forall_cons_iff in Hdecks as [Hdeck Hdecks].
    cbn [map run]. rewrite (snapshot_same_deck this data Hdeck). cbv zeta.
    rewrite Hp, page_updates_step.
    destruct (JS.number_neq (JS.Int p) (_currentPageNumber this)).
    + set (this1 := set_pageNumberInput_value _ _).
      destruct (IH pages this1 Hdecks Hpages) as (Hlog & Hloads & page & value & Hthis).
      destruct (run this1 (map snapshot ds)) as [this2 log2].
      cbn [fst snd] in *. subst log2. cbn. repeat split.
      * exact Hloads.
      * exists page, value. rewrite Hthis. reflexivity.
    + destruct (IH pages this Hdecks Hpages) as (Hlog & Hloads & page & value & Hthis).
      destruct (run this (map snapshot ds)) as [this2 log2].
      cbn [fst snd] in *. subst log2. cbn. repeat split.
      * exact Hloads.
      * exists page, value. exact Hthis.
Qed.

Lemma same_deck_notifications_set_page_once_witness :
  let notify p := {| currentDeck := JS.Str "A";
                     currentPageNumber := JS.FNumber (JS.Int p) |} in
  snd (run deckA_page3 (map snapshot [notify 3; notify 5; notify 5; notify 7]))
    = [viewer_currentPageNumber (JS.Int 5); viewer_currentPageNumber (JS.Int 7)].
Proof.
  intros notify.
  apply (same_deck_notifications_set_page_once
           [notify 3; notify 5; notify 5; notify 7] [3; 5; 5; 7] deckA_page3).
  - repeat constructor.
  - reflexivity.
Defined.

(** ** Further properties of [clamp] *)

(** X1.  With the bounds the wrong way round ([max < min], as when the
    viewer holds no page and the bounds are 1 and 0), [clamp] returns [max]
    whatever the value. *)
Theorem clamp_inverted_bounds (v lo hi : Z) :
  hi < lo -> clamp (JS.Int v) (JS.Int lo) (JS.Int hi) = JS.Int hi.
Proof.
  intros Hinv. unfold clamp, JS.Math_min, JS.Math_max. f_equal. lia.
Qed.

Lemma clamp_inverted_bounds_witness :
  clamp (JS.Int 4) (JS.Int 1) (JS.Int 0) = JS.Int 0.
Proof. apply (clamp_inverted_bounds 4 1 0). lia. Defined.


(** X3.  For integer arguments with [min <= max], the result of [clamp] lies
    between the bounds, clamping it again changes nothing, and a larger
    value never gives a smaller result. *)
Theorem clamp_within_bounds (v lo hi : Z) :
  lo <= hi ->
  exists r,
    clamp (JS.Int v) (JS.Int lo) (JS.Int hi) = JS.Int r /\
    lo <= r <= hi /\
    clamp (JS.Int r) (JS.Int lo) (JS.Int hi) = JS.Int r /\
    forall w r',
      v <= w -> clamp (JS.Int w) (JS.Int lo) (JS.Int hi) = JS.Int r' -> r <= r'.
Proof.
  intros Hle. exists (Z.min (Z.max v lo) hi).
  unfold clamp, JS.Math_min, JS.Math_max.
  split; [reflexivity|split; [lia|split]].
  - f_equal. lia.
  - intros w r' Hvw [= <-]. lia.
Qed.

Lemma clamp_within_bounds_witness :
  exists r,
    clamp (JS.Int 12) (JS.Int 1) (JS.Int 10) = JS.Int r /\
    1 <= r <= 10 /\
    clamp (JS.Int r) (JS.Int 1) (JS.Int 10) = JS.Int r /\
    forall w r',
      12 <= w -> clamp (JS.Int w) (JS.Int 1) (JS.Int 10) = JS.Int r' -> r <= r'.
Proof. apply (clamp_within_bounds 12 1 10). lia. Defined.

(** ** The login controls, the keyboard and the session *)

(** No handler but [_onAuthStateChanged] touches the login controls or the
    session. *)
Lemma step_keeps_login_controls (this : AdminApp) (e : event) :
  (forall user, e <> authStateChanged user) ->
  auth_currentUser (fst (step this e)) = auth_currentUser this /\
  emailField_textContent (fst (step this e)) = emailField_textContent this /\
  emailField_hidden (fst (step this e)) = emailField_hidden this /\
  loginButton_hidden (fst (step this e)) = loginButton_hidden this /\
  logoutButton_hidden (fst (step this e)) = logoutButton_hidden this.
Proof.
  intros He. destruct e; try (now (exfalso; eapply He));
    run_handler; case_tests; repeat split; reflexivity.
Qed.

Lemma step_login_controls (this : AdminApp) (e : event) :
  login_controls_show_session this ->
  login_controls_show_session (fst (step this e)).
Proof.
  intros Hshow.
  destruct e as [data|i|i|pagesCount| |value|value| | |key| | |user];
    try (match goal with
         | |- login_controls_show_session (fst (step this ?e)) =>
             destruct (step_keeps_login_controls this e
                         ltac:(intros ?; discriminate))
               as (Hu & Ht & Hh & Hi & Ho)
         end;
         unfold login_controls_show_session in *;
         rewrite Hu, Ht, Hh, Hi, Ho; exact Hshow).
  destruct user; cbn; repeat split; reflexivity.
Qed.

(** X4.  An auth state change makes the login controls show the new
    session (e-mail and logout visible when signed in, login visible when
    not), calls nothing and leaves the deck and the page alone; once the
    controls show the session, they do so after any sequence of events. *)
Theorem login_controls_follow_session (this : AdminApp) :
  (forall user,
     login_controls_show_session (fst (step this (authStateChanged user))) /\
     snd (step this (authStateChanged user)) = [] /\
     _currentDeck (fst (step this (authStateChanged user))) = _currentDeck this /\
     _currentPageNumber (fst (step this (authStateChanged user)))
       = _currentPageNumber this) /\
  (forall es,
     login_controls_show_session this ->
     login_controls_show_session (fst (run this es))).
Proof.
  split.
  - intros [u|]; cbn; repeat split; reflexivity.
  - intros es. revert this. induction es as [|e es IH]; intros this Hshow;
      [exact Hshow|].
    cbn [run]. pose proof (step_login_controls this e Hshow) as Hstep.
    destruct (step this e) as [this1 log1]. cbn [fst] in Hstep.
    specialize (IH this1 Hstep).
    now destruct (run this1 es) as [this2 log2].
Qed.

Lemma login_controls_follow_session_witness :
  login_controls_show_session deckA_page3 /\
  login_controls_show_session
    (fst (run deckA_page3
            [nextPage_click; authStateChanged (Some operator);
             deckNameInput_change "B"; logoutButton_click])).
Proof.
  assert (Hshow : login_controls_show_session deckA_page3)
    by (cbn; repeat split; reflexivity).
  split; [exact Hshow|].
  exact (proj2 (login_controls_follow_session deckA_page3) _ Hshow).
Defined.

(** X5.  Only a click on the logout button signs out, and only a click on
    the login button leaves for the login page; neither changes anything in
    the object nor calls anything else. *)
Theorem sign_out_only_on_logout (this : AdminApp) :
  (forall e, In signOut (snd (step this e)) -> e = logoutButton_click) /\
  (forall e url,
     In (location_replace url) (snd (step this e)) ->
     e = loginButton_click /\ url = "/login.html") /\
  step this logoutButton_click = (this, [signOut]) /\
  step this loginButton_click = (this, [location_replace "/login.html"]).
Proof.
  split; [|split; [|split; reflexivity]].
  - intros e. destruct e; try reflexivity;
      run_handler; case_tests; cbn; intros Hin;
      repeat (destruct Hin as [Hin|Hin]; try discriminate); contradiction.
  - intros e url. destruct e;
      run_handler; case_tests; cbn; intros Hin;
      repeat (destruct Hin as [Hin|Hin]; try discriminate);
      try contradiction.
    injection Hin as <-. now split.
Qed.

Lemma sign_out_only_on_logout_witness :
  In signOut (snd (step deckA_page3_signed_in logoutButton_click)) /\
  logoutButton_click = logoutButton_click.
Proof.
  assert (Hin : In signOut (snd (step deckA_page3_signed_in logoutButton_click)))
    by (left; reflexivity).
  split; [exact Hin|].
  exact (proj1 (sign_out_only_on_logout deckA_page3_signed_in) _ Hin).
Defined.

(** X6.  On the keyboard, the left arrow does what the prev button does and
    the right arrow what the next button does; any other key changes
    nothing and calls nothing. *)
Theorem keydown_arrows_only (this : AdminApp) :
  step this (keydown "ArrowLeft") = step this prevPage_click /\
  step this (keydown "ArrowRight") = step this nextPage_click /\
  (forall key,
     key <> "ArrowLeft" -> key <> "ArrowRight" ->
     step this (keydown key) = (this, [])).
Proof.
  split; [reflexivity|split; [reflexivity|]].
  intros key Hleft Hright. unfold step, dispatch, on_keydown.
  apply String.eqb_neq in Hleft, Hright. now rewrite Hleft, Hright.
Qed.

Lemma keydown_arrows_only_witness :
  step deckA_page3 (keydown "arrowleft") = (deckA_page3, []).
Proof.
  apply (proj2 (proj2 (keydown_arrows_only deckA_page3)) "arrowleft");
    discriminate.
Defined.

(** ** What every turn keeps *)

Lemma name_neq_false_eq (value : string) (d : JS.name) :
  JS.name_neq (JS.Str value) d = false -> d = JS.Str value.
Proof.
  destruct d as [| |s]; cbn; try discriminate.
  intros Heq. apply negb_false_iff, String.eqb_eq in Heq. now subst.
Qed.

Lemma step_selector_shows_deck (this : AdminApp) (e : event) :
  selector_shows_deck this -> selector_shows_deck (fst (step this e)).
Proof.
  intros Hshow.
  destruct e as [data|i|i|pagesCount| |value|value| | |key| | |user];
    try (run_handler; case_tests; first [exact Hshow | reflexivity]).
  rewrite deckNameInput_change_step.
  destruct (JS.name_neq _ _) eqn:Hneq; cbn [fst]; [reflexivity|].
  apply name_neq_false_eq in Hneq. unfold selector_shows_deck. cbn.
  now rewrite Hneq.
Qed.

(** X7.  The deck selector shows the stored deck name after every change of
    the selector and after every successful deck load, and no event breaks
    this afterwards: the setter is the only code that assigns either. *)
Theorem selector_follows_deck (this : AdminApp) :
  (forall value,
     selector_shows_deck (fst (step this (deckNameInput_change value)))) /\
  (forall i remoteDeck,
     nth_error (loading this) i = Some remoteDeck ->
     selector_shows_deck (fst (step this (deck_loaded i)))) /\
  (forall es,
     selector_shows_deck this -> selector_shows_deck (fst (run this es))).
Proof.
  split; [|split].
  - intros value. rewrite deckNameInput_change_step.
    destruct (JS.name_neq _ _) eqn:Hneq; cbn [fst]; [reflexivity|].
    apply name_neq_false_eq in Hneq. unfold selector_shows_deck. cbn.
    now rewrite Hneq.
  - intros i remoteDeck Hi. rewrite (deck_loaded_pending this i remoteDeck Hi).
    reflexivity.
  - intros es. revert this. induction es as [|e es IH]; intros this Hshow;
      [exact Hshow|].
    cbn [run]. pose proof (step_selector_shows_deck this e Hshow) as Hstep.
    destruct (step this e) as [this1 log1]. cbn [fst] in Hstep.
    specialize (IH this1 Hstep).
    now destruct (run this1 es) as [this2 log2].
Qed.

Lemma selector_follows_deck_witness :
  selector_shows_deck deckA_page3 /\
  selector_shows_deck
    (fst (run deckA_page3
            [snapshot {| currentDeck := JS.Str "B";
                         currentPageNumber := JS.FNumber (JS.Int 2) |};
             deckNameInput_change "C"; deck_loaded 0; prevPage_click])).
Proof.
  assert (Hshow : selector_shows_deck deckA_page3) by reflexivity.
  split; [exact Hshow|].
  exact (proj2 (proj2 (selector_follows_deck deckA_page3)) _ Hshow).
Defined.

(** After a notification the local page number is the parsed one. *)
Lemma snapshot_page (this : AdminApp) (data : DocumentData) :
  _currentPageNumber (fst (step this (snapshot data)))
    = Some (JS.parseInt (currentPageNumber data)).
Proof.
  destruct (JS.name_neq (_currentDeck this) (currentDeck data)) eqn:Hdeck;
    [rewrite snapshot_other_deck by assumption
    |rewrite snapshot_same_deck by assumption];
    cbv zeta;
    (destruct (JS.number_neq _ _) eqn:Hneq; cbn [fst]; [reflexivity|]);
    cbn; unfold JS.number_neq in Hneq;
    destruct (JS.parseInt _); try discriminate;
    destruct (_currentPageNumber this) as [[b|]|]; try discriminate;
    apply negb_false_iff, Z.eqb_eq in Hneq; now subst.
Qed.

Lemma step_page_is_integer (this : AdminApp) (e : event) :
  is_snapshot e = false ->
  page_is_integer this = true ->
  page_is_integer (fst (step this e)) = true.
Proof.
  intros He Hint.
  destruct e as [data|i|i|pagesCount| |value|value| | |key| | |user];
    try discriminate;
    try (run_handler; case_tests; exact Hint).
  - rewrite pageNumberInput_change_step. cbv zeta.
    destruct (JS.isInteger _) eqn:Hp; cbn [andb]; [|exact Hint].
    destruct (JS.number_neq _ _); [|exact Hint].
    unfold page_is_integer. cbn. exact Hp.
  - rewrite (navigation_step this prevPage_click (-1) eq_refl),
      _onPageChangeButton_click. cbv zeta.
    destruct (JS.isInteger _) eqn:Hp; cbn [andb]; [|exact Hint].
    destruct (JS.number_neq _ _); [|exact Hint].
    unfold page_is_integer. cbn. exact Hp.
  - rewrite (navigation_step this nextPage_click 1 eq_refl),
      _onPageChangeButton_click. cbv zeta.
    destruct (JS.isInteger _) eqn:Hp; cbn [andb]; [|exact Hint].
    destruct (JS.number_neq _ _); [|exact Hint].
    unfold page_is_integer. cbn. exact Hp.
  - destruct (navigation_delta (keydown key)) as [delta|] eqn:Hkey.
    + rewrite (navigation_step this _ delta Hkey), _onPageChangeButton_click.
      cbv zeta.
      destruct (JS.isInteger _) eqn:Hp; cbn [andb]; [|exact Hint].
      destruct (JS.number_neq _ _); [|exact Hint].
      unfold page_is_integer. cbn. exact Hp.
    + cbn in Hkey. unfold step, dispatch, on_keydown.
      destruct (String.eqb key "ArrowLeft"); [discriminate|].
      destruct (String.eqb key "ArrowRight"); [discriminate|].
      exact Hint.
Qed.

(** X8.  Only a remote notification can leave the local page number at a
    value that is no integer: an integer page number stays an integer over
    any sequence of other events, and after a notification it is an integer
    exactly when the notified page parses to one. *)
Theorem page_stays_integer (this : AdminApp) :
  (forall es,
     forallb (fun e => negb (is_snapshot e)) es = true ->
     page_is_integer this = true ->
     page_is_integer (fst (run this es)) = true) /\
  (forall data,
     page_is_integer (fst (step this (snapshot data)))
       = JS.isInteger (JS.parseInt (currentPageNumber data))).
Proof.
  split.
  - intros es. revert this. induction es as [|e es IH]; intros this Hes Hint;
      [exact Hint|].
    cbn [forallb] in Hes. apply andb_prop in Hes as [He Hes].
    apply negb_true_iff in He. cbn [run].
    pose proof (step_page_is_integer this e He Hint) as Hstep.
    destruct (step this e) as [this1 log1]. cbn [fst] in Hstep.
    specialize (IH this1 Hes Hstep).
    now destruct (run this1 es) as [this2 log2].
  - intros data. unfold page_is_integer. now rewrite snapshot_page.
Qed.

Lemma page_stays_integer_witness :
  page_is_integer deckA_page3 = true /\
  page_is_integer
    (fst (run deckA_page3
            [pageNumberInput_change "x"; nextPage_click;
             pageNumberInput_change "-4"; keydown "ArrowLeft"])) = true.
Proof.
  split; [reflexivity|].
  apply (proj1 (page_stays_integer deckA_page3)); reflexivity.
Defined.

(** ** What is written to the remote document *)

Lemma in_write_back (this : AdminApp) (data written : update) :
  In (updateDoc written) (write_back this data) ->
  written = data /\ auth_currentUser this <> None /\
  write_back this data = [updateDoc data].
Proof.
  unfold write_back. destruct (auth_currentUser this); cbn; [|contradiction].
  intros [[= <-]|[]]. repeat split. discriminate.
Qed.

(** The writes of a page handler, read off its turn. *)
Lemma page_turn_write (this other : AdminApp) (pageNumber : JS.number)
    (written : update) (result : AdminApp * list effect) :
  result =
    (if JS.isInteger pageNumber
        && JS.number_neq pageNumber (_currentPageNumber this)
     then (set_pageNumberInput_value (JS.number_toString pageNumber)
             (set__currentPageNumber (Some pageNumber) this),
           viewer_currentPageNumber pageNumber
             :: write_back this (currentPageNumber_is pageNumber))
     else (other, [])) ->
  In (updateDoc written) (snd result) ->
  written = currentPageNumber_is pageNumber /\
  JS.isInteger pageNumber = true /\
  auth_currentUser this <> None /\
  _currentPageNumber (fst result) = Some pageNumber /\
  pageNumberInput_value (fst result) = JS.number_toString pageNumber /\
  snd result = [viewer_currentPageNumber pageNumber; updateDoc written].
Proof.
  intros -> Hin.
  destruct (JS.isInteger pageNumber) eqn:Hint; cbn [andb] in *;
    [|contradiction].
  destruct (JS.number_neq _ _); cbn [fst snd] in *; [|contradiction].
  destruct Hin as [Hin|Hin]; [discriminate|].
  apply in_write_back in Hin as (-> & Hauth & ->).
  repeat split; try reflexivity; exact Hauth.
Qed.

Lemma navigation_turn (this : AdminApp) (e : event) (delta : Z) :
  navigation_delta e = Some delta ->
  step this e =
    let pageNumber :=
      clamp (JS.add (_currentPageNumber this) delta) (JS.Int 1)
        (JS.Int (viewer_pagesCount this)) in
    if JS.isInteger pageNumber && JS.number_neq pageNumber (_currentPageNumber this)
    then (set_pageNumberInput_value (JS.number_toString pageNumber)
            (set__currentPageNumber (Some pageNumber) this),
          viewer_currentPageNumber pageNumber
            :: write_back this (currentPageNumber_is pageNumber))
    else (this, []).
Proof.
  intros He. rewrite (navigation_step this e delta He), _onPageChangeButton_click.
  cbv zeta. now destruct (JS.isInteger _ && JS.number_neq _ _).
Qed.

Lemma keydown_other (this : AdminApp) (key : string) :
  navigation_delta (keydown key) = None -> step this (keydown key) = (this, []).
Proof.
  cbn. unfold step, dispatch, on_keydown.
  destruct (String.eqb key "ArrowLeft"); [discriminate|].
  destruct (String.eqb key "ArrowRight"); [discriminate|].
  reflexivity.
Qed.

(** X9.  Whatever is written to the remote document is the value the turn
    has just stored locally, and it is the only write of the turn: a written
    deck name is the local deck name shown in the selector, a written page
    number is an integer, is the local page number shown in the page field
    and was handed to the viewer before the write; and somebody is signed
    in. *)
Theorem written_value_is_local (this : AdminApp) (e : event) (written : update) :
  In (updateDoc written) (snd (step this e)) ->
  auth_currentUser this <> None /\
  remote_writes (snd (step this e)) = [updateDoc written] /\
  match written with
  | currentDeck_is deckName =>
      _currentDeck (fst (step this e)) = JS.Str deckName /\
      deckNameInput_value (fst (step this e)) = deckName
  | currentPageNumber_is pageNumber =>
      JS.isInteger pageNumber = true /\
      _currentPageNumber (fst (step this e)) = Some pageNumber /\
      pageNumberInput_value (fst (step this e)) = JS.number_toString pageNumber /\
      snd (step this e) = [viewer_currentPageNumber pageNumber; updateDoc written]
  end.
Proof.
  intros Hin.
  destruct (user_input e) eqn:He.
  2:{ exfalso.
      assert (Hf : In (updateDoc written) (remote_writes (snd (step this e))))
        by (apply filter_In; split; [exact Hin|reflexivity]).
      now rewrite (no_write_without_user_input this e He) in Hf. }
  destruct (navigation_delta e) as [delta|] eqn:Hnav.
  - destruct (page_turn_write this this _ written _
                (navigation_turn this e delta Hnav) Hin)
      as (-> & Hint & Hauth & Hpage & Hfield & Hlog).
    rewrite Hlog. repeat split; assumption.
  - destruct e as [data|i|i|pagesCount| |value|value| | |key| | |user];
      try discriminate.
    + rewrite deckNameInput_change_step in *.
      destruct (JS.name_neq _ _); cbn [fst snd] in *; [|contradiction].
      apply in_write_back in Hin as (-> & Hauth & ->).
      repeat split. exact Hauth.
    + destruct (page_turn_write this (set_pageNumberInput_value value this)
                  (JS.parseInt_string value) written _
                  (pageNumberInput_change_step this value) Hin)
        as (-> & Hint & Hauth & Hpage & Hfield & Hlog).
      rewrite Hlog. repeat split; assumption.
    + rewrite (keydown_other this key Hnav) in Hin. contradiction.
Qed.

Lemma written_value_is_local_witness :
  In (updateDoc (currentPageNumber_is (JS.Int 4)))
    (snd (step deckA_page3_signed_in nextPage_click)) /\
  remote_writes (snd (step deckA_page3_signed_in nextPage_click))
    = [updateDoc (currentPageNumber_is (JS.Int 4))].
Proof.
  assert (Hin : In (updateDoc (currentPageNumber_is (JS.Int 4)))
                  (snd (step deckA_page3_signed_in nextPage_click)))
    by (right; left; reflexivity).
  split; [exact Hin|].
  exact (proj1 (proj2 (written_value_is_local deckA_page3_signed_in
                         nextPage_click _ Hin))).
Defined.

(** X10.  While the viewer holds at least one page, a page number written
    by prev/next navigation (buttons or arrow keys) lies in
    [1, pagesCount]. *)
Theorem navigation_writes_in_range
    (this : AdminApp) (e : event) (delta : Z) (written : update) :
  navigation_delta e = Some delta ->
  1 <= viewer_pagesCount this ->
  In (updateDoc written) (snd (step this e)) ->
  exists p,
    written = currentPageNumber_is (JS.Int p) /\
    1 <= p <= viewer_pagesCount this.
Proof.
  intros Hnav Hcount Hin.
  destruct (page_turn_write this this _ written _
              (navigation_turn this e delta Hnav) Hin)
    as (-> & Hint & _).
  destruct (_currentPageNumber this) as [[c|]|]; try discriminate.
  exists (Z.min (Z.max (c + delta) 1) (viewer_pagesCount this)).
  split; [reflexivity|lia].
Qed.

Lemma navigation_writes_in_range_witness :
  exists p,
    currentPageNumber_is (JS.Int 2) = currentPageNumber_is (JS.Int p) /\
    1 <= p <= viewer_pagesCount deckA_page3_signed_in.
Proof.
  apply (navigation_writes_in_range deckA_page3_signed_in
           (keydown "ArrowLeft") (-1)).
  - reflexivity.
  - cbn. lia.
  - right. left. reflexivity.
Defined.

(** ** Notifications and deck loads in sequence *)

Lemma name_neq_refl (d : JS.name) : JS.name_neq d d = false.
Proof. destruct d; [reflexivity..|apply name_neq_same]. Qed.

Lemma run_cons (this : AdminApp) (e : event) (es : list event) :
  run this (e :: es)
    = (fst (run (fst (step this e)) es),
       (snd (step this e) ++ snd (run (fst (step this e)) es))%list).
Proof.
  cbn [run]. destruct (step this e) as [this1 log1]. cbn [fst snd].
  now destruct (run this1 es) as [this2 log2].
Qed.

Lemma run_nil (this : AdminApp) : run this [] = (this, []).
Proof. reflexivity. Qed.

(** What a notification does to the deck: nothing but starting a load when
    the notified deck is another one. *)
Lemma snapshot_deck (this : AdminApp) (data : DocumentData) :
  _currentDeck (fst (step this (snapshot data))) = _currentDeck this /\
  deckNameInput_value (fst (step this (snapshot data)))
    = deckNameInput_value this /\
  pagesCountSpan_textContent (fst (step this (snapshot data)))
    = pagesCountSpan_textContent this /\
  viewer_pagesCount (fst (step this (snapshot data))) = viewer_pagesCount this /\
  loading (fst (step this (snapshot data)))
    = (if JS.name_neq (_currentDeck this) (currentDeck data)
       then loading this ++ [currentDeck data] else loading this)%list /\
  deck_loads (snd (step this (snapshot data)))
    = (if JS.name_neq (_currentDeck this) (currentDeck data)
       then [updateDeck (currentDeck data)] else []).
Proof.
  destruct (JS.name_neq (_currentDeck this) (currentDeck data)) eqn:Hdeck;
    [rewrite snapshot_other_deck by assumption
    |rewrite snapshot_same_deck by assumption];
    cbv zeta; destruct (JS.number_neq _ _); repeat split; reflexivity.
Qed.

(** What a successful load leaves behind. *)
Lemma deck_loaded_state (this : AdminApp) (i : nat) (remoteDeck : JS.name) :
  nth_error (loading this) i = Some remoteDeck ->
  _currentDeck (fst (step this (deck_loaded i))) = remoteDeck /\
  deckNameInput_value (fst (step this (deck_loaded i)))
    = JS.name_toString remoteDeck /\
  pagesCountSpan_textContent (fst (step this (deck_loaded i)))
    = JS.number_toString (JS.Int (viewer_pagesCount this)) /\
  _currentPageNumber (fst (step this (deck_loaded i))) = _currentPageNumber this /\
  loading (fst (step this (deck_loaded i))) = remove_at i (loading this) /\
  snd (step this (deck_loaded i)) = [].
Proof.
  intros Hi. rewrite (deck_loaded_pending this i remoteDeck Hi).
  repeat split; reflexivity.
Qed.



Lemma deck_loads_app (l1 l2 : list effect) :
  deck_loads (l1 ++ l2) = (deck_loads l1 ++ deck_loads l2)%list.
Proof. apply filter_app. Qed.

(** X12.  Every notification that names a deck other than the local one
    starts a load of it, also while a load of that deck is in flight and
    after one has failed: [k] such notifications in a row start [k] loads,
    all in flight afterwards, and a notification that follows a failed load
    starts the load again. *)
Theorem each_notification_starts_a_load (this : AdminApp) (data : DocumentData) :
  JS.name_neq (_currentDeck this) (currentDeck data) = true ->
  (forall k,
     deck_loads (snd (run this (repeat (snapshot data) k)))
       = repeat (updateDeck (currentDeck data)) k /\
     loading (fst (run this (repeat (snapshot data) k)))
       = (loading this ++ repeat (currentDeck data) k)%list /\
     _currentDeck (fst (run this (repeat (snapshot data) k))) = _currentDeck this) /\
  deck_loads
    (snd (run this [snapshot data;
                    deck_load_failed (List.length (loading this));
                    snapshot data]))
    = [updateDeck (currentDeck data); updateDeck (currentDeck data)].
Proof.
  intros Hdeck. split.
  - intros k. revert this Hdeck.
    induction k as [|k IH]; intros this Hdeck.
    + cbn. rewrite app_nil_r. repeat split.
    + cbn [repeat]. rewrite run_cons. cbn [fst snd].
      destruct (snapshot_deck this data) as (Hd & _ & _ & _ & Hl & Hloads).
      rewrite Hdeck in Hl, Hloads.
      destruct (IH (fst (step this (snapshot data)))) as (IH1 & IH2 & IH3);
        [now rewrite Hd|].
      rewrite deck_loads_app, Hloads, IH1, IH2, IH3, Hl, Hd.
      repeat split. now rewrite <- app_assoc.
  - rewrite !run_cons, run_nil. cbn [fst snd]. rewrite app_nil_r.
    destruct (snapshot_deck this data) as (Hd & _ & _ & _ & Hl & Hloads).
    rewrite Hdeck in Hl, Hloads.
    set (this1 := fst (step this (snapshot data))) in *.
    assert (Hi : nth_error (loading this1) (List.length (loading this))
                 = Some (currentDeck data))
      by (rewrite Hl; apply nth_error_last_added).
    rewrite (deck_load_failed_pending this1 _ _ Hi). cbn [fst snd].
    rewrite !deck_loads_app, Hloads.
    destruct (snapshot_deck
                (set_loading (remove_at (List.length (loading this))
                                (loading this1)) this1) data)
      as (_ & _ & _ & _ & _ & Hloads2).
    rewrite Hloads2. cbn [_currentDeck set_loading]. rewrite Hd, Hdeck.
    reflexivity.
Qed.

Lemma each_notification_starts_a_load_witness :
  let data := {| currentDeck := JS.Str "B";
                 currentPageNumber := JS.FNumber (JS.Int 3) |} in
  JS.name_neq (_currentDeck deckA_page3) (currentDeck data) = true /\
  deck_loads (snd (run deckA_page3 (repeat (snapshot data) 3%nat)))
    = repeat (updateDeck (JS.Str "B")) 3%nat.
Proof.
  intros data. split; [reflexivity|].
  apply (proj1 (each_notification_starts_a_load deckA_page3 data eq_refl)
           3%nat).
Defined.

Lemma nth_error_middle {A : Type} (l r : list A) (x : A) :
  nth_error (l ++ x :: r)%list (List.length l) = Some x.
Proof. induction l as [|y l IH]; [reflexivity | exact IH]. Qed.

Lemma remove_at_middle {A : Type} (l r : list A) (x : A) :
  remove_at (List.length l) (l ++ x :: r)%list = (l ++ r)%list.
Proof. induction l as [|y l IH]; [reflexivity | cbn; now rewrite IH]. Qed.

Lemma length_last_added {A : Type} (l : list A) (x : A) :
  List.length (l ++ [x])%list = S (List.length l).
Proof. induction l as [|y l IH]; [reflexivity | cbn; now rewrite IH]. Qed.

(** The state after two notifications for decks other than the local one:
    both loads are in flight, the local deck is the old one, the page is
    the one notified last. *)
Lemma two_loads_in_flight (this : AdminApp) (data1 data2 : DocumentData) :
  JS.name_neq (_currentDeck this) (currentDeck data1) = true ->
  JS.name_neq (_currentDeck this) (currentDeck data2) = true ->
  loading (fst (step (fst (step this (snapshot data1))) (snapshot data2)))
    = (loading this ++ [currentDeck data1; currentDeck data2])%list /\
  _currentPageNumber
    (fst (step (fst (step this (snapshot data1))) (snapshot data2)))
    = Some (JS.parseInt (currentPageNumber data2)).
Proof.
  intros Hdeck1 Hdeck2.
  destruct (snapshot_deck this data1) as (Hd1 & _ & _ & _ & Hl1 & _).
  destruct (snapshot_deck (fst (step this (snapshot data1))) data2)
    as (_ & _ & _ & _ & Hl2 & _).
  rewrite Hd1, Hdeck2, Hl1, Hdeck1, <- app_assoc in Hl2.
  split; [exact Hl2 | apply snapshot_page].
Qed.

(** X13.  Deck loads are not ordered: after two notifications for decks
    other than the local one, the local deck name is that of the load that
    succeeds last.  When the load of the first notification succeeds after
    that of the second, the panel ends on the deck of the first, older
    notification (with the page of the second); in the other order it ends
    on the deck of the second. *)
Theorem last_load_to_succeed_wins
    (this : AdminApp) (data1 data2 : DocumentData) :
  JS.name_neq (_currentDeck this) (currentDeck data1) = true ->
  JS.name_neq (_currentDeck this) (currentDeck data2) = true ->
  let n := List.length (loading this) in
  let stale :=
    fst (run this [snapshot data1; snapshot data2;
                   deck_loaded (S n); deck_loaded n]) in
  let ordered :=
    fst (run this [snapshot data1; snapshot data2;
                   deck_loaded n; deck_loaded n]) in
  (_currentDeck stale = currentDeck data1 /\
   deckNameInput_value stale = JS.name_toString (currentDeck data1) /\
   _currentPageNumber stale = Some (JS.parseInt (currentPageNumber data2)) /\
   loading stale = loading this) /\
  (_currentDeck ordered = currentDeck data2 /\
   deckNameInput_value ordered = JS.name_toString (currentDeck data2) /\
   _currentPageNumber ordered = Some (JS.parseInt (currentPageNumber data2)) /\
   loading ordered = loading this).
Proof.
  intros Hdeck1 Hdeck2 n stale ordered. subst stale ordered.
  rewrite !run_cons, !run_nil. cbn [fst].
  destruct (two_loads_in_flight this data1 data2 Hdeck1 Hdeck2) as [Hl Hp].
  set (this2 := fst (step (fst (step this (snapshot data1))) (snapshot data2)))
    in *.
  split.
  - assert (Hi : nth_error (loading this2) (S n) = Some (currentDeck data2)).
    { rewrite Hl. subst n. rewrite <- (length_last_added _ (currentDeck data1)).
      change [currentDeck data1; currentDeck data2]
        with ([currentDeck data1] ++ [currentDeck data2])%list.
      rewrite app_assoc. apply nth_error_middle. }
    destruct (deck_loaded_state this2 (S n) _ Hi) as (_ & _ & _ & Hp3 & Hl3 & _).
    set (this3 := fst (step this2 (deck_loaded (S n)))) in *.
    assert (Hl3' : loading this3 = (loading this ++ [currentDeck data1])%list).
    { rewrite Hl3, Hl. subst n.
      rewrite <- (length_last_added _ (currentDeck data1)).
      change [currentDeck data1; currentDeck data2]
        with ([currentDeck data1] ++ [currentDeck data2])%list.
      rewrite app_assoc, remove_at_middle. apply app_nil_r. }
    assert (Hj : nth_error (loading this3) n = Some (currentDeck data1))
      by (rewrite Hl3'; apply nth_error_middle).
    destruct (deck_loaded_state this3 n _ Hj) as (Hd4 & Hs4 & _ & Hp4 & Hl4 & _).
    rewrite Hd4, Hs4, Hp4, Hp3, Hp, Hl4, Hl3'.
    repeat split. subst n. rewrite remove_at_middle. apply app_nil_r.
  - assert (Hi : nth_error (loading this2) n = Some (currentDeck data1))
      by (rewrite Hl; apply nth_error_middle).
    destruct (deck_loaded_state this2 n _ Hi) as (_ & _ & _ & Hp3 & Hl3 & _).
    set (this3 := fst (step this2 (deck_loaded n))) in *.
    assert (Hl3' : loading this3 = (loading this ++ [currentDeck data2])%list)
      by (rewrite Hl3, Hl; apply remove_at_middle).
    assert (Hj : nth_error (loading this3) n = Some (currentDeck data2))
      by (rewrite Hl3'; apply nth_error_middle).
    destruct (deck_loaded_state this3 n _ Hj) as (Hd4 & Hs4 & _ & Hp4 & Hl4 & _).
    rewrite Hd4, Hs4, Hp4, Hp3, Hp, Hl4, Hl3'.
    repeat split. subst n. rewrite remove_at_middle. apply app_nil_r.
Qed.

Lemma last_load_to_succeed_wins_witness :
  let to_B := {| currentDeck := JS.Str "B";
                 currentPageNumber := JS.FNumber (JS.Int 1) |} in
  let to_C := {| currentDeck := JS.Str "C";
                 currentPageNumber := JS.FNumber (JS.Int 2) |} in
  _currentDeck
    (fst (run deckA_page3 [snapshot to_B; snapshot to_C;
                           deck_loaded 1; deck_loaded 0])) = JS.Str "B".
Proof.
  intros to_B to_C.
  apply (last_load_to_succeed_wins deckA_page3 to_B to_C eq_refl eq_refl).
Defined.

(** X14.  A notification for another deck followed by the success of the
    load it started brings the panel to the notified state: the local deck
    name and the selector are the notified deck, the page count shown is the
    viewer's, the local page number is the parsed notified page, and no
    load is left over.  If that page is an integer, the same notification
    arriving again is then absorbed without any call. *)
Theorem loaded_notification_converges (this : AdminApp) (data : DocumentData) :
  JS.name_neq (_currentDeck this) (currentDeck data) = true ->
  let after :=
    fst (run this [snapshot data; deck_loaded (List.length (loading this))]) in
  _currentDeck after = currentDeck data /\
  deckNameInput_value after = JS.name_toString (currentDeck data) /\
  pagesCountSpan_textContent after
    = JS.number_toString (JS.Int (viewer_pagesCount this)) /\
  _currentPageNumber after = Some (JS.parseInt (currentPageNumber data)) /\
  loading after = loading this /\
  (JS.isInteger (JS.parseInt (currentPageNumber data)) = true ->
   step after (snapshot data) = (after, [])).
Proof.
  intros Hdeck after. subst after. rewrite !run_cons, run_nil. cbn [fst].
  destruct (snapshot_deck this data) as (_ & _ & _ & Hv & Hl & _).
  rewrite Hdeck in Hl.
  pose proof (snapshot_page this data) as Hp.
  set (this1 := fst (step this (snapshot data))) in *.
  assert (Hi : nth_error (loading this1) (List.length (loading this))
               = Some (currentDeck data))
    by (rewrite Hl; apply nth_error_last_added).
  destruct (deck_loaded_state this1 _ _ Hi) as (Hd2 & Hs2 & Hc2 & Hp2 & Hl2 & _).
  set (this2 := fst (step this1 (deck_loaded _))) in *.
  rewrite Hd2, Hs2, Hc2, Hp2, Hp, Hl2, Hl, Hv, remove_at_last_added.
  repeat split.
  intros Hint.
  rewrite snapshot_same_deck by (rewrite Hd2; apply name_neq_refl).
  cbv zeta. rewrite Hp2, Hp.
  destruct (JS.parseInt (currentPageNumber data)) as [p|]; [|discriminate].
  cbn [JS.number_neq]. now rewrite Z.eqb_refl.
Qed.

Lemma loaded_notification_converges_witness :
  let data := {| currentDeck := JS.Str "B";
                 currentPageNumber := JS.FNumber (JS.Int 7) |} in
  JS.name_neq (_currentDeck deckA_page3) (currentDeck data) = true /\
  _currentDeck (fst (run deckA_page3 [snapshot data; deck_loaded 0]))
    = JS.Str "B" /\
  _currentPageNumber (fst (run deckA_page3 [snapshot data; deck_loaded 0]))
    = Some (JS.Int 7).
Proof.
  intros data. split; [reflexivity|].
  pose proof (loaded_notification_converges deckA_page3 data eq_refl)
    as (Hdeck & _ & _ & Hpage & _).
  split; [exact Hdeck | exact Hpage].
Defined.



(** X16.  A fresh panel (no deck name, no page number yet) handles its first
    notification with a deck name by loading that deck and setting the page
    at once, before the load has settled and even when the page does not
    parse; until then prev/next and the arrow keys do nothing. *)
Theorem first_notification_loads_and_sets_page (this : AdminApp) :
  _currentDeck this = JS.Undefined ->
  _currentPageNumber this = None ->
  (forall data s,
     currentDeck data = JS.Str s ->
     snd (step this (snapshot data))
       = [updateDeck (JS.Str s);
          viewer_currentPageNumber (JS.parseInt (currentPageNumber data))] /\
     loading (fst (step this (snapshot data)))
       = (loading this ++ [JS.Str s])%list /\
     _currentDeck (fst (step this (snapshot data))) = JS.Undefined) /\
  (forall e delta, navigation_delta e = Some delta -> step this e = (this, [])).
Proof.
  intros Hdeck Hpage. split.
  - intros data s Hdata.
    rewrite snapshot_other_deck by now rewrite Hdeck, Hdata.
    cbv zeta. rewrite Hpage, Hdata.
    replace (JS.number_neq _ None) with true
      by now destruct (JS.parseInt (currentPageNumber data)).
    repeat split. exact Hdeck.
  - intros e delta He. rewrite (navigation_turn this e delta He).
    cbv zeta. now rewrite Hpage.
Qed.

Lemma first_notification_loads_and_sets_page_witness :
  let fresh := set__currentDeck JS.Undefined
                 (set__currentPageNumber None deckA_page3) in
  snd (step fresh (snapshot {| currentDeck := JS.Str "A";
                               currentPageNumber := JS.FUndefined |}))
    = [updateDeck (JS.Str "A"); viewer_currentPageNumber JS.NaN].
Proof.
  intros fresh.
  apply (proj1 (first_notification_loads_and_sets_page fresh eq_refl eq_refl)
           {| currentDeck := JS.Str "A"; currentPageNumber := JS.FUndefined |}
           "A" eq_refl).
Defined.

(** ** The page-number field and navigation at the edges *)

Lemma trim_start_blank (s : string) :
  blank s = true -> JS.trim_start s = "".
Proof.
  induction s as [|c s IH]; [reflexivity|].
  cbn. destruct (JS.is_white_space c); [exact IH | discriminate].
Qed.

(** X17.  An empty or blank page-number input, like any input that does not
    parse, is ignored: the local page number is kept, nothing is called and
    nothing is written; the field keeps the text that was typed. *)
Theorem blank_input_ignored (this : AdminApp) (value : string) :
  blank value = true \/ JS.parseInt_string value = JS.NaN ->
  step this (pageNumberInput_change value)
    = (set_pageNumberInput_value value this, []).
Proof.
  intros Hvalue. apply unparsable_input_ignored.
  destruct Hvalue as [Hblank|Hnan]; [|exact Hnan].
  unfold JS.parseInt_string. now rewrite (trim_start_blank value Hblank).
Qed.

Lemma blank_input_ignored_witness :
  step deckA_page3_signed_in (pageNumberInput_change "   ")
    = (set_pageNumberInput_value "   " deckA_page3_signed_in, []).
Proof.
  apply (blank_input_ignored deckA_page3_signed_in "   "). left. reflexivity.
Defined.



(** X19.  Navigation stops at the ends: while the viewer holds at least one
    page, "next" (button or right arrow) on the last page and "prev" (button
    or left arrow) on page 1 change nothing, call nothing and write
    nothing. *)
Theorem navigation_stops_at_ends (this : AdminApp) (e : event) :
  1 <= viewer_pagesCount this ->
  (_currentPageNumber this = Some (JS.Int (viewer_pagesCount this)) /\
   navigation_delta e = Some 1)
  \/ (_currentPageNumber this = Some (JS.Int 1) /\
      navigation_delta e = Some (-1)) ->
  step this e = (this, []).
Proof.
  intros Hcount [[Hpage He]|[Hpage He]];
    rewrite (navigation_turn this e _ He); cbv zeta; rewrite Hpage;
    unfold clamp; cbn [JS.add JS.Math_max JS.Math_min JS.isInteger
                       JS.number_neq andb].
  - replace (Z.min (Z.max (viewer_pagesCount this + 1) 1) (viewer_pagesCount this))
      with (viewer_pagesCount this) by lia.
    now rewrite Z.eqb_refl.
  - replace (Z.min (Z.max (1 + -1) 1) (viewer_pagesCount this)) with 1 by lia.
    reflexivity.
Qed.

Lemma navigation_stops_at_ends_witness :
  step (set__currentPageNumber (Some (JS.Int 10)) deckA_page3_signed_in)
    (keydown "ArrowRight")
  = (set__currentPageNumber (Some (JS.Int 10)) deckA_page3_signed_in, []).
Proof.
  apply (navigation_stops_at_ends
           (set__currentPageNumber (Some (JS.Int 10)) deckA_page3_signed_in)
           (keydown "ArrowRight")).
  - cbn. lia.
  - left. split; reflexivity.
Defined.



(** ** The deck list *)

Lemma populate_deck_names_app (ids : list string) (children : list option_element) :
  populate_deck_names children ids
    = (children
       ++ map (fun id => {| option_value := id; option_textContent := id |}) ids)%list.
Proof.
  revert children. induction ids as [|id ids IH]; intros children.
  - cbn. now rewrite app_nil_r.
  - cbn [populate_deck_names fold_left map] in *.
    unfold populate_deck_names in IH. rewrite IH. unfold append_deck_option.
    now rewrite <- app_assoc.
Qed.

(** X21.  Filling the deck selector keeps the options it has and appends one
    option per deck document, in the order of the query snapshot, each with
    the document id as its value and as its label; an empty collection
    leaves the selector as it is, and filling in two batches is filling
    once with both. *)
Theorem deck_options_follow_documents
    (children : list option_element) (ids : list string) :
  map option_value (populate_deck_names children ids)
    = (map option_value children ++ ids)%list /\
  map option_textContent (populate_deck_names children ids)
    = (map option_textContent children ++ ids)%list /\
  firstn (List.length children) (populate_deck_names children ids) = children /\
  populate_deck_names children [] = children /\
  (forall more,
     populate_deck_names (populate_deck_names children ids) more
       = populate_deck_names children (ids ++ more)).
Proof.
  rewrite populate_deck_names_app.
  rewrite !map_app, !map_map. cbn [option_value option_textContent].
  rewrite map_id, firstn_app, Nat.sub_diag, firstn_all. cbn [firstn].
  rewrite app_nil_r. repeat split.
  intros more. rewrite !populate_deck_names_app, map_app.
  symmetry. apply app_assoc.
Qed.

(** X22.  Input is compared by value, not by text: an input that parses to
    the current page number (the same digits, or the digits followed by
    other text) and a selection of the current deck change nothing but the
    text of the control, call nothing and write nothing, also when somebody
    is signed in. *)
Theorem reentered_value_ignored (this : AdminApp) :
  (forall value n,
     _currentPageNumber this = Some (JS.Int n) ->
     JS.parseInt_string value = JS.Int n ->
     step this (pageNumberInput_change value)
       = (set_pageNumberInput_value value this, [])) /\
  (forall deckName,
     _currentDeck this = JS.Str deckName ->
     step this (deckNameInput_change deckName)
       = (set_deckNameInput_value deckName this, [])).
Proof.
  split.
  - intros value n Hpage Hparse.
    rewrite pageNumberInput_change_step. cbv zeta.
    rewrite Hparse, Hpage. cbn [JS.isInteger JS.number_neq andb].
    now rewrite Z.eqb_refl.
  - intros deckName Hdeck. rewrite deckNameInput_change_step, Hdeck.
    now rewrite name_neq_same.
Qed.

Lemma reentered_value_ignored_witness :
  step deckA_page3_signed_in (pageNumberInput_change "3px")
    = (set_pageNumberInput_value "3px" deckA_page3_signed_in, []) /\
  step deckA_page3_signed_in (deckNameInput_change "A")
    = (set_deckNameInput_value "A" deckA_page3_signed_in, []).
Proof.
  split.
  - apply (proj1 (reentered_value_ignored deckA_page3_signed_in) "3px" 3);
      reflexivity.
  - apply (proj2 (reentered_value_ignored deckA_page3_signed_in) "A").
    reflexivity.
Defined.
